(** * Streamyfin transcoding player: a shallow embedding of the playback
    session controller and of the download button.

    Sources embedded here:
    - [app/(auth)/player/transcoding-player.tsx]: the [Player] component
      (its event handlers, the subtitle catalogue and [useVideoSource]);
    - [components/VideoPlayer.tsx]: the [startPosition] memo;
    - the [DownloadItem] component: [downloadFile].

    Conventions.  A React render closes over the values of the component's
    state and query results at the time of that render; refs and reanimated
    shared values are read live.  Every handler therefore takes two
    arguments of type [Player]: the render [r] whose closure is being run
    and the live component [s].  A handler run from an up-to-date render is
    the handler applied to [s s].  A handler returns the new live component
    and the trace of calls it makes on the video engine and on the
    play-state API.

    JavaScript numbers are idealised: integer-valued numbers are [Z],
    times in seconds and ticks are exact rationals [Q].  Only [parseInt]
    rounds its result to a double; a double's range is not modelled. *)

From Stdlib Require Import List String Ascii ZArith QArith Qround Bool Lia Sorted.
Import ListNotations.

Local Open Scope Z_scope.

(** ** JavaScript values *)

Module Js.

(** The result of [parseInt]: an integer or [NaN]. *)
Inductive number : Type :=
| NaN
| Num (z : Z).

(** [T | null | undefined]. *)
Inductive nullable (A : Type) : Type :=
| undefined
| null
| value (a : A).
Arguments undefined {A}.
Arguments null {A}.
Arguments value {A} a.

(** [x ? .. : ..] on a string that may be undefined: the empty string is
    falsy. *)
Definition truthy_string (s : option string) : bool :=
  match s with
  | Some EmptyString => false
  | Some _ => true
  | None => false
  end.

(** [x ? .. : ..] on a boolean that may be undefined. *)
Definition truthy_bool (b : option bool) : bool :=
  match b with
  | Some true => true
  | _ => false
  end.

(** [x ? .. : ..] on a number that may be undefined: [0] and [NaN] are
    falsy, every other number (negative ones too) is truthy. *)
Definition truthy_number (n : option number) : bool :=
  match n with
  | Some (Num z) => negb (z =? 0)
  | _ => false
  end.

(** [a === b] for strings that may be [null] or [undefined]; this is also
    the SameValueZero comparison a [Set] of such values uses. *)
Definition strict_eq_string (a b : nullable string) : bool :=
  match a, b with
  | undefined, undefined => true
  | null, null => true
  | value x, value y => String.eqb x y
  | _, _ => false
  end.

(** [a === b] between a stream's [Index?: number] and a parsed launch
    parameter. [NaN] is equal to nothing; [undefined === undefined]. *)
Definition strict_eq_index (a : option Z) (b : option number) : bool :=
  match a, b with
  | None, None => true
  | Some x, Some (Num y) => x =? y
  | _, _ => false
  end.

(** [Math.floor] and [Math.round] (halves round towards +infinity). *)
Definition Math_floor (q : Q) : Z := Qfloor q.
Definition Math_round (q : Q) : Z := Qfloor (q + (1 # 2)).

(** [hay.includes(needle)]. *)
Fixpoint includes (needle hay : string) : bool :=
  String.prefix needle hay ||
  match hay with
  | EmptyString => false
  | String _ rest => includes needle rest
  end.

(** *** [parseInt(s, 10)]

    Leading white space is skipped, one sign is read, then the longest
    run of decimal digits; no digit at all gives [NaN].  A string holds
    the UTF-8 bytes of its text: the white space of the language is the
    ASCII part (tab, line feed, vertical tab, form feed, carriage return,
    space) and the characters U+00A0, U+1680, U+2000 to U+200A, U+2028,
    U+2029, U+202F, U+205F, U+3000 and U+FEFF in their encodings.  The
    result is a double: an integer of more than 53 bits is rounded to the
    nearest one a double holds, ties to even. *)
Definition isWhiteSpace (c : ascii) : bool :=
  let n := nat_of_ascii c in
  ((9 <=? n) && (n <=? 13))%nat || (n =? 32)%nat.

(** U+00A0 is C2 A0. *)
Definition isWhiteSpace2 (c1 c2 : ascii) : bool :=
  ((nat_of_ascii c1 =? 194) && (nat_of_ascii c2 =? 160))%nat.

(** The three-byte white space characters. *)
Definition isWhiteSpace3 (c1 c2 c3 : ascii) : bool :=
  let n1 := nat_of_ascii c1 in
  let n2 := nat_of_ascii c2 in
  let n3 := nat_of_ascii c3 in
  ((n1 =? 225) && (n2 =? 154) && (n3 =? 128)                 (* U+1680 *)
   || (n1 =? 226) && (n2 =? 128)
      && (((128 <=? n3) && (n3 <=? 138))            (* U+2000 .. U+200A *)
          || (n3 =? 168) || (n3 =? 169)             (* U+2028, U+2029 *)
          || (n3 =? 175))                           (* U+202F *)
   || (n1 =? 226) && (n2 =? 129) && (n3 =? 159)              (* U+205F *)
   || (n1 =? 227) && (n2 =? 128) && (n3 =? 128)              (* U+3000 *)
   || (n1 =? 239) && (n2 =? 187) && (n3 =? 191))%nat.        (* U+FEFF *)

Fixpoint trimStart (s : string) : string :=
  match s with
  | String c1 rest1 =>
      if isWhiteSpace c1 then trimStart rest1
      else
        match rest1 with
        | String c2 rest2 =>
            if isWhiteSpace2 c1 c2 then trimStart rest2
            else
              match rest2 with
              | String c3 rest3 =>
                  if isWhiteSpace3 c1 c2 c3 then trimStart rest3 else s
              | EmptyString => s
              end
        | EmptyString => s
        end
  | EmptyString => s
  end.

Definition digitValue (c : ascii) : option Z :=
  let n := Z.of_nat (nat_of_ascii c) in
  if (48 <=? n) && (n <=? 57) then Some (n - 48) else None.

(** [digits s seen acc]: the value of the longest digit prefix of [s],
    [None] when there is none. *)
Fixpoint digits (s : string) (seen : bool) (acc : Z) : option Z :=
  match s with
  | String c rest =>
      match digitValue c with
      | Some d => digits rest true (10 * acc + d)
      | None => if seen then Some acc else None
      end
  | EmptyString => if seen then Some acc else None
  end.

(** The double nearest to an integer, ties to even (the integer itself
    below 2^53). *)
Definition toDouble (z : Z) : Z :=
  let a := Z.abs z in
  if a <? 2 ^ 53 then z
  else
    let e := Z.log2 a - 52 in
    let q := Z.shiftr a e in
    let rest := a - Z.shiftl q e in
    let half := Z.shiftl 1 (e - 1) in
    let q' :=
      if (half <? rest) || ((rest =? half) && Z.odd q) then q + 1 else q in
    Z.sgn z * Z.shiftl q' e.

Definition parseInt (s : string) : number :=
  let t := trimStart s in
  let '(sign, body) :=
    match t with
    | String "-"%char rest => (-1, rest)
    | String "+"%char rest => (1, rest)
    | _ => (1, t)
    end in
  match digits body false 0 with
  | Some n => Num (toDouble (sign * n))
  | None => NaN
  end.

(** [Array.prototype.find]. *)
Fixpoint find {A : Type} (f : A -> bool) (l : list A) : option A :=
  match l with
  | [] => None
  | x :: rest => if f x then Some x else find f rest
  end.

(** [Array.prototype.indexOf] with the comparison [eqb], [-1] when no
    element is equal. *)
Fixpoint indexOf_from {A : Type} (eqb : A -> A -> bool) (l : list A)
    (x : A) (i : Z) : Z :=
  match l with
  | [] => -1
  | y :: rest => if eqb y x then i else indexOf_from eqb rest x (i + 1)
  end.

Definition indexOf {A : Type} (eqb : A -> A -> bool) (l : list A) (x : A)
  : Z :=
  indexOf_from eqb l x 0.

(** [Array.from(new Set(l))]: the elements of [l] in order of first
    insertion, later equal elements dropped. *)
Fixpoint set_insert {A : Type} (eqb : A -> A -> bool) (seen : list A)
    (x : A) : list A :=
  match seen with
  | [] => [x]
  | y :: rest => if eqb y x then seen else y :: set_insert eqb rest x
  end.

Definition Array_from_Set {A : Type} (eqb : A -> A -> bool) (l : list A)
  : list A :=
  fold_left (set_insert eqb) l [].

End Js.

(** ** Data received from the media server (the SDK's generated types,
    reduced to the fields the player and the download button read). *)

Inductive MediaStreamType : Type :=
| Audio | Video | Subtitle | EmbeddedImage | Data | Lyric.

(** Every field of the generated types is optional. [Type] is [Type_]
    here. *)
Record MediaStream : Type := {
  Type_ : option MediaStreamType;
  IsTextSubtitleStream : option bool;
  DisplayTitle : Js.nullable string;
  Index : option Z
}.

Record MediaSourceInfo : Type := {
  MediaStreams : option (list MediaStream);
  SupportsDirectPlay : option bool
}.

Record PlaybackInfoResponse : Type := {
  MediaSources : option (list MediaSourceInfo)
}.

Record UserItemDataDto : Type := {
  PlaybackPositionTicks : option Z
}.

Record BaseItemDto : Type := {
  Id : option string;
  UserData : option UserItemDataDto;
  CanDownload : option bool
}.

(** The value the ["stream-url"] query resolves to. *)
Record StreamData : Type := {
  mediaSource : MediaSourceInfo;
  sessionId : string;
  url : string
}.

(** ** Launch parameters ([useLocalSearchParams]) *)

Module Params.
Record t : Type := {
  itemId : option string;
  audioIndex : option string;
  subtitleIndex : option string;
  mediaSourceId : option string;
  bitrateValue : option string
}.
End Params.

(** ** Calls on the play-state API and on the video engine *)

Inductive PlayMethod : Type := Transcode | DirectStream.

Inductive ReportKind : Type :=
| onPlaybackStart | onPlaybackProgress | onPlaybackStopped.

Definition ReportKind_eqb (a b : ReportKind) : bool :=
  match a, b with
  | onPlaybackStart, onPlaybackStart
  | onPlaybackProgress, onPlaybackProgress
  | onPlaybackStopped, onPlaybackStopped => true
  | _, _ => false
  end.

Module Playstate.
(** The argument object of [getPlaystateApi(api).onPlayback*]; a field
    the call does not set is [None]. *)
Record t : Type := {
  kind : ReportKind;
  itemId : option string;
  audioStreamIndex : option Z;
  subtitleStreamIndex : option Z;
  mediaSourceId : option string;
  positionTicks : option Z;
  isPaused : option bool;
  playMethod : option PlayMethod;
  playSessionId : option string
}.
End Playstate.

Inductive SelectedTrackType : Type := INDEX.

Record SelectedTrack : Type := {
  type : SelectedTrackType;
  value : Z
}.

(** A text track as the engine announces it ([onTextTracks]). *)
Record TextTrack : Type := {
  index : Z;
  language : option string;
  selected : option bool;
  title : option string
}.

(** [TrackInfo] of the VLC module, as [getSubtitleTracks] builds it. *)
Record TrackInfo : Type := {
  ti_name : string;
  ti_index : Z;
  ti_language : option string
}.

(** What a handler does to the outside, in program order. *)
Inductive Effect : Type :=
| VideoResume
| VideoPause
| VideoSeek (seconds : Q)
| HapticImpact
| Report (p : Playstate.t)
| SetSelectedTextTrack (t : SelectedTrack)
| DownloadMedia (item : BaseItemDto).

Record OnProgressData : Type := {
  currentTime : Q;
  playableDuration : Q
}.

(** ** The [Player] component

    [api] says whether [apiAtom] holds a client.  [item] and [stream] are
    the data of the two queries ([null] and [undefined] are both [None]).
    [videoRef] says whether [videoRef.current] is set, that is whether a
    [Video] element is mounted.  Layout-only state ([showControls],
    [ignoreSafeAreas]) and the audio track list are left out. *)
Record Player : Type := {
  api : bool;
  params : Params.t;
  item : option BaseItemDto;
  stream : option StreamData;
  (* useState *)
  isPlaybackStopped : bool;
  isPlaying : bool;
  isBuffering : bool;
  selectedTextTrack : option SelectedTrack;
  embededTextTracks : list TextTrack;
  (* useRef, useSharedValue *)
  videoRef : bool;
  firstTime : bool;
  progress : Q;
  isSeeking : bool;
  cacheProgress : Q
}.

Definition setIsPlaybackStopped (b : bool) (s : Player) : Player :=
  {| api := api s; params := params s; item := item s; stream := stream s;
     isPlaybackStopped := b; isPlaying := isPlaying s;
     isBuffering := isBuffering s;
     selectedTextTrack := selectedTextTrack s;
     embededTextTracks := embededTextTracks s;
     videoRef := videoRef s; firstTime := firstTime s;
     progress := progress s; isSeeking := isSeeking s;
     cacheProgress := cacheProgress s |}.

Definition setIsPlaying (b : bool) (s : Player) : Player :=
  {| api := api s; params := params s; item := item s; stream := stream s;
     isPlaybackStopped := isPlaybackStopped s; isPlaying := b;
     isBuffering := isBuffering s;
     selectedTextTrack := selectedTextTrack s;
     embededTextTracks := embededTextTracks s;
     videoRef := videoRef s; firstTime := firstTime s;
     progress := progress s; isSeeking := isSeeking s;
     cacheProgress := cacheProgress s |}.

Definition setIsBuffering (b : bool) (s : Player) : Player :=
  {| api := api s; params := params s; item := item s; stream := stream s;
     isPlaybackStopped := isPlaybackStopped s; isPlaying := isPlaying s;
     isBuffering := b;
     selectedTextTrack := selectedTextTrack s;
     embededTextTracks := embededTextTracks s;
     videoRef := videoRef s; firstTime := firstTime s;
     progress := progress s; isSeeking := isSeeking s;
     cacheProgress := cacheProgress s |}.

Definition setSelectedTextTrack (t : SelectedTrack) (s : Player) : Player :=
  {| api := api s; params := params s; item := item s; stream := stream s;
     isPlaybackStopped := isPlaybackStopped s; isPlaying := isPlaying s;
     isBuffering := isBuffering s;
     selectedTextTrack := Some t;
     embededTextTracks := embededTextTracks s;
     videoRef := videoRef s; firstTime := firstTime s;
     progress := progress s; isSeeking := isSeeking s;
     cacheProgress := cacheProgress s |}.

Definition setEmbededTextTracks (l : list TextTrack) (s : Player) : Player :=
  {| api := api s; params := params s; item := item s; stream := stream s;
     isPlaybackStopped := isPlaybackStopped s; isPlaying := isPlaying s;
     isBuffering := isBuffering s;
     selectedTextTrack := selectedTextTrack s;
     embededTextTracks := l;
     videoRef := videoRef s; firstTime := firstTime s;
     progress := progress s; isSeeking := isSeeking s;
     cacheProgress := cacheProgress s |}.

Definition setFirstTime (b : bool) (s : Player) : Player :=
  {| api := api s; params := params s; item := item s; stream := stream s;
     isPlaybackStopped := isPlaybackStopped s; isPlaying := isPlaying s;
     isBuffering := isBuffering s;
     selectedTextTrack := selectedTextTrack s;
     embededTextTracks := embededTextTracks s;
     videoRef := videoRef s; firstTime := b;
     progress := progress s; isSeeking := isSeeking s;
     cacheProgress := cacheProgress s |}.

Definition setProgress (q : Q) (s : Player) : Player :=
  {| api := api s; params := params s; item := item s; stream := stream s;
     isPlaybackStopped := isPlaybackStopped s; isPlaying := isPlaying s;
     isBuffering := isBuffering s;
     selectedTextTrack := selectedTextTrack s;
     embededTextTracks := embededTextTracks s;
     videoRef := videoRef s; firstTime := firstTime s;
     progress := q; isSeeking := isSeeking s;
     cacheProgress := cacheProgress s |}.

Definition setCacheProgress (q : Q) (s : Player) : Player :=
  {| api := api s; params := params s; item := item s; stream := stream s;
     isPlaybackStopped := isPlaybackStopped s; isPlaying := isPlaying s;
     isBuffering := isBuffering s;
     selectedTextTrack := selectedTextTrack s;
     embededTextTracks := embededTextTracks s;
     videoRef := videoRef s; firstTime := firstTime s;
     progress := progress s; isSeeking := isSeeking s;
     cacheProgress := q |}.

(** [isSeeking] is handed to the [Controls] component, which writes it
    while the user drags the slider; the player itself only reads it. *)
Definition setIsSeeking (b : bool) (s : Player) : Player :=
  {| api := api s; params := params s; item := item s; stream := stream s;
     isPlaybackStopped := isPlaybackStopped s; isPlaying := isPlaying s;
     isBuffering := isBuffering s;
     selectedTextTrack := selectedTextTrack s;
     embededTextTracks := embededTextTracks s;
     videoRef := videoRef s; firstTime := firstTime s;
     progress := progress s; isSeeking := b;
     cacheProgress := cacheProgress s |}.

(** ** Values derived during a render *)

Definition option_bind {A B : Type} (o : option A) (f : A -> option B)
  : option B :=
  match o with
  | Some a => f a
  | None => None
  end.

(** [s ? parseInt(s, 10) : undefined]. *)
Definition parseParam (s : option string) : option Js.number :=
  if Js.truthy_string s
  then option_map Js.parseInt s
  else None.

Definition audioIndex (r : Player) : option Js.number :=
  parseParam (Params.audioIndex (params r)).

Definition subtitleIndex (r : Player) : option Js.number :=
  parseParam (Params.subtitleIndex (params r)).

Definition mediaSourceId (r : Player) : option string :=
  Params.mediaSourceId (params r).

(** [item?.Id]. *)
Definition itemId (r : Player) : option string :=
  option_bind (item r) Id.

(** [n ? n : undefined], the expression every report uses for
    [audioStreamIndex] and [subtitleStreamIndex]. *)
Definition forwardIndex (n : option Js.number) : option Z :=
  if Js.truthy_number n
  then match n with
       | Some (Js.Num z) => Some z
       | _ => None
       end
  else None.

(** [stream?.url.includes("m3u8") ? "Transcode" : "DirectStream"]. *)
Definition playMethodOf (r : Player) : PlayMethod :=
  match stream r with
  | Some st => if Js.includes "m3u8" (url st) then Transcode else DirectStream
  | None => DirectStream
  end.

(** [stream?.sessionId]. *)
Definition playSessionIdOf (r : Player) : option string :=
  option_map sessionId (stream r).

(** Modelled from the spec: [secondsToTicks] of [@/utils/secondsToTicks]
    is not among the sources.  The glossary fixes 10,000,000 ticks to the
    second, and [components/VideoPlayer.tsx] converts with
    [currentTime * 10000000]. *)
Definition secondsToTicks (seconds : Q) : Q := seconds * 10000000.

(** ** Play-state reports

    [getPlaystateApi(api!)] dereferences the client before the argument
    object is built: without a client the call throws inside the [async]
    function and nothing is sent. *)

Definition callPlaystate (r : Player) (p : Playstate.t) : list Effect :=
  if api r then [Report p] else [].

Definition progressReport (r : Player) (position : Z) (paused : bool)
  : Playstate.t :=
  {| Playstate.kind := onPlaybackProgress;
     Playstate.itemId := itemId r;
     Playstate.audioStreamIndex := forwardIndex (audioIndex r);
     Playstate.subtitleStreamIndex := forwardIndex (subtitleIndex r);
     Playstate.mediaSourceId := mediaSourceId r;
     Playstate.positionTicks := Some position;
     Playstate.isPaused := Some paused;
     Playstate.playMethod := Some (playMethodOf r);
     Playstate.playSessionId := playSessionIdOf r |}.

Definition startReport (r : Player) : Playstate.t :=
  {| Playstate.kind := onPlaybackStart;
     Playstate.itemId := itemId r;
     Playstate.audioStreamIndex := forwardIndex (audioIndex r);
     Playstate.subtitleStreamIndex := forwardIndex (subtitleIndex r);
     Playstate.mediaSourceId := mediaSourceId r;
     Playstate.positionTicks := None;
     Playstate.isPaused := None;
     Playstate.playMethod := Some (playMethodOf r);
     Playstate.playSessionId := playSessionIdOf r |}.

Definition stoppedReport (r : Player) (position : Z) : Playstate.t :=
  {| Playstate.kind := onPlaybackStopped;
     Playstate.itemId := itemId r;
     Playstate.audioStreamIndex := None;
     Playstate.subtitleStreamIndex := None;
     Playstate.mediaSourceId := mediaSourceId r;
     Playstate.positionTicks := Some position;
     Playstate.isPaused := None;
     Playstate.playMethod := None;
     Playstate.playSessionId := playSessionIdOf r |}.

(** [reportPlaybackStart]: closes over the render; [if (!item?.Id) return]. *)
Definition reportPlaybackStart (r : Player) : list Effect :=
  if negb (Js.truthy_string (itemId r)) then []
  else callPlaystate r (startReport r).

(** [reportPlaybackStopped]: closes over the render, reads [progress.value]
    live.  The cache revalidation that follows the awaited request is not
    part of the trace. *)
Definition reportPlaybackStopped (r s : Player) : list Effect :=
  if negb (Js.truthy_string (itemId r)) then []
  else callPlaystate r (stoppedReport r (Js.Math_floor (progress s))).

(** ** Handlers *)

Definition Handler : Type := Player -> Player -> Player * list Effect.

(** [videoRef.current?.m()]. *)
Definition onVideo (s : Player) (e : Effect) : list Effect :=
  if videoRef s then [e] else [].

Definition togglePlay (ticks : Q) : Handler := fun r s =>
  if isPlaying r
  then (s, HapticImpact :: onVideo s VideoPause
             ++ callPlaystate r (progressReport r (Js.Math_floor ticks) true))
  else (s, HapticImpact :: onVideo s VideoResume
             ++ callPlaystate r (progressReport r (Js.Math_floor ticks) false)).

Definition play : Handler := fun r s =>
  (s, onVideo s VideoResume ++ reportPlaybackStart r).

Definition pause : Handler := fun r s =>
  (s, onVideo s VideoPause).

Definition seek (seconds : Q) : Handler := fun r s =>
  (s, onVideo s (VideoSeek seconds)).

Definition stop : Handler := fun r s =>
  (setIsPlaybackStopped true s,
   onVideo s VideoPause ++ reportPlaybackStopped r s).

Definition onProgress (data : OnProgressData) : Handler := fun r s =>
  if isSeeking s then (s, [])
  else if isPlaybackStopped r then (s, [])
  else
    let ticks := secondsToTicks (currentTime data) in
    let s1 := setProgress ticks s in
    let s2 := setCacheProgress (secondsToTicks (playableDuration data)) s1 in
    let s3 := setIsBuffering (Qeq_bool (playableDuration data) 0) s2 in
    if negb (Js.truthy_string (itemId r)) || Qeq_bool (currentTime data) 0
    then (s3, [])
    else (s3, callPlaystate r
                (progressReport r (Js.Math_round ticks) (negb (isPlaying r)))).

(** [onLoad]: the inline handler reads the [firstTime] ref and calls the
    memoised [play] of render [r]. *)
Definition onLoad : Handler := fun r s =>
  if firstTime s
  then let '(s1, t) := play r s in (setFirstTime false s1, t)
  else (s, []).

Definition onPlaybackStateChanged (playing : bool) : Handler := fun r s =>
  if isSeeking s then (s, []) else (setIsPlaying playing s, []).

Definition onBuffer (buffering : bool) : Handler := fun r s =>
  (setIsBuffering buffering s, []).

Definition onTextTracks (tracks : list TextTrack) : Handler := fun r s =>
  (setEmbededTextTracks tracks s, []).

(** [setSubtitleTrack] as handed to [Controls]. *)
Definition setSubtitleTrack (i : Z) : Handler := fun r s =>
  (setSelectedTextTrack {| type := INDEX; value := i |} s, []).

Definition getSubtitleTracks (r : Player) : list TrackInfo :=
  map (fun t =>
         {| ti_name := match title t with Some n => n | None => "" end;
            ti_index := index t;
            ti_language := language t |})
      (embededTextTracks r).

(** ** The subtitle catalogue

    A stream object is identified by its position in [MediaStreams]: the
    catalogue compares objects by identity ([indexOf]), and two streams
    with equal fields are still two objects. *)

Definition StreamObj : Type := (nat * MediaStream)%type.

Definition objects (l : list MediaStream) : list StreamObj :=
  combine (seq 0 (List.length l)) l.

Definition isTextSub (o : StreamObj) : bool :=
  match Type_ (snd o) with
  | Some Subtitle => Js.truthy_bool (IsTextSubtitleStream (snd o))
  | _ => false
  end.

Definition mediaStreamsOf (r : Player) : list StreamObj :=
  match stream r with
  | Some st =>
      match MediaStreams (mediaSource st) with
      | Some l => objects l
      | None => []
      end
  | None => []
  end.

(** [stream?.mediaSource.MediaStreams?.filter(..) || []]. *)
Definition textSubs (r : Player) : list StreamObj :=
  filter isTextSub (mediaStreamsOf r).

Definition hasTitle (t : Js.nullable string) (o : StreamObj) : bool :=
  Js.strict_eq_string (DisplayTitle (snd o)) t.

Definition uniqueOf (subs : list StreamObj) : list (option StreamObj) :=
  map (fun t => Js.find (hasTitle t) subs)
      (Js.Array_from_Set Js.strict_eq_string
         (map (fun o => DisplayTitle (snd o)) subs)).

Definition uniqueTextSubs (r : Player) : list (option StreamObj) :=
  uniqueOf (textSubs r).

Definition chosenSubtitleTrack (r : Player) : option StreamObj :=
  Js.find (fun o => Js.strict_eq_index (Index (snd o)) (subtitleIndex r))
          (textSubs r).

(** Identity of two entries of [uniqueTextSubs] ([===] on objects or
    [undefined]). *)
Definition same_object (a b : option StreamObj) : bool :=
  match a, b with
  | Some x, Some y => Nat.eqb (fst x) (fst y)
  | None, None => true
  | _, _ => false
  end.

(** The effect keyed on [embededTextTracks]. *)
Definition textTracksEffect : Handler := fun r s =>
  match chosenSubtitleTrack r, selectedTextTrack r with
  | Some c, None =>
      let t := {| type := INDEX;
                  value := Js.indexOf same_object (uniqueTextSubs r) (Some c) |} in
      (setSelectedTextTrack t s, [SetSelectedTextTrack t])
  | _, _ => (s, [])
  end.

(** A track-discovery event: [onTextTracks] stores a new array, React
    renders again and runs the effect from that render. *)
Definition discover (tracks : list TextTrack) (s : Player)
  : Player * list Effect :=
  let s1 := fst (onTextTracks tracks s s) in
  textTracksEffect s1 s1.

Fixpoint discoverAll (events : list (list TextTrack)) (s : Player)
  : Player * list Effect :=
  match events with
  | [] => (s, [])
  | tracks :: rest =>
      let '(s1, t1) := discover tracks s in
      let '(s2, t2) := discoverAll rest s1 in
      (s2, t1 ++ t2)
  end.

(** ** The video source handed to the engine

    [headers] and [metadata] of the source object are left out; the
    [poster] argument only feeds [metadata]. *)

Record VideoSource : Type := {
  uri : string;
  isNetwork : bool;
  startPosition : Z
}.

(** [item?.UserData?.PlaybackPositionTicks]. *)
Definition playbackPositionTicks (it : BaseItemDto) : option Z :=
  option_bind (UserData it) PlaybackPositionTicks.

Definition useVideoSource (item : option BaseItemDto) (api : bool)
    (url : option string) : option VideoSource :=
  match item, url with
  | Some it, Some u =>
      if negb api || negb (Js.truthy_string url) then None
      else
        let startPosition :=
          match playbackPositionTicks it with
          | Some t =>
              if t =? 0 then 0 else Js.Math_round (inject_Z t / 10000)
          | None => 0
          end in
        Some {| uri := u; isNetwork := true; startPosition := startPosition |}
  | _, _ => None
  end.

Definition videoSource (r : Player) : option VideoSource :=
  useVideoSource (item r) (api r) (option_map url (stream r)).

Module VideoPlayer.
(** [Math.round((item?.UserData?.PlaybackPositionTicks || 0) / 10000)] of
    [components/VideoPlayer.tsx]. *)
Definition startPosition (item : option BaseItemDto) : Z :=
  let ticks :=
    match option_bind item playbackPositionTicks with
    | Some t => t
    | None => 0
    end in
  Js.Math_round (inject_Z ticks / 10000).
End VideoPlayer.

(** ** The download button *)

Module DownloadItem.

(** How the promise of the [async] callback settles. *)
Inductive Settled : Type :=
| Fulfilled
| Rejected (message : string).

Definition notDownloadable : string :=
  "Direct play not supported thus the file cannot be downloaded".

(** [playbackInfo.MediaSources?.[0]]. *)
Definition firstSource (info : PlaybackInfoResponse)
  : option MediaSourceInfo :=
  option_bind (MediaSources info) (fun l => nth_error l 0).

Definition downloadFile (item : BaseItemDto)
    (playbackInfo : option PlaybackInfoResponse) : Settled * list Effect :=
  match playbackInfo with
  | None => (Fulfilled, [])
  | Some info =>
      if Js.truthy_bool (option_bind (firstSource info) SupportsDirectPlay)
         && Js.truthy_bool (CanDownload item)
      then (Fulfilled, [DownloadMedia item])
      else (Rejected notDownloadable, [])
  end.

End DownloadItem.

(** ** Sessions: sequences of handler runs *)

Inductive Event : Type :=
(* Controls *)
| Play
| Pause
| Seek (seconds : Q)
| TogglePlay (ticks : Q)
| SelectSubtitle (i : Z)
| Slider (seeking : bool)
(* useWebSocket callbacks *)
| RemotePlay
| RemotePause
| RemoteStop
(* useFocusEffect and its cleanup *)
| ScreenFocus
| ScreenUnfocus
(* a direct call of stop *)
| StopPlayback
(* the Video element *)
| EngineProgress (data : OnProgressData)
| EngineLoad
| EnginePlaybackState (playing : bool)
| EngineBuffer (buffering : bool)
| EngineTextTracks (tracks : list TextTrack).

Definition dispatch (e : Event) : Handler :=
  match e with
  | Play | RemotePlay | ScreenFocus => play
  | Pause | RemotePause => pause
  | Seek seconds => seek seconds
  | TogglePlay ticks => togglePlay ticks
  | SelectSubtitle i => setSubtitleTrack i
  | Slider b => fun _ s => (setIsSeeking b s, [])
  | RemoteStop | ScreenUnfocus | StopPlayback => stop
  | EngineProgress data => onProgress data
  | EngineLoad => onLoad
  | EnginePlaybackState b => onPlaybackStateChanged b
  | EngineBuffer b => onBuffer b
  | EngineTextTracks tracks => fun _ s => discover tracks s
  end.

(** A step names the render whose closure runs: [None] for the current
    one, [Some r] for an older render [r] (a memoised callback). *)
Definition Step : Type := (option Player * Event)%type.

Definition closureOf (st : Step) (s : Player) : Player :=
  match fst st with
  | Some r => r
  | None => s
  end.

Definition step (st : Step) (s : Player) : Player * list Effect :=
  dispatch (snd st) (closureOf st s) s.

Fixpoint run (steps : list Step) (s : Player) : Player * list Effect :=
  match steps with
  | [] => (s, [])
  | st :: rest =>
      let '(s1, t1) := step st s in
      let '(s2, t2) := run rest s1 in
      (s2, t1 ++ t2)
  end.

(** The reports of one kind in a trace. *)
Definition isReport (k : ReportKind) (e : Effect) : bool :=
  match e with
  | Report p => ReportKind_eqb (Playstate.kind p) k
  | _ => false
  end.

Definition countReports (k : ReportKind) (t : list Effect) : nat :=
  List.length (filter (isReport k) t).

(** All reports of a trace, whatever their kind. *)
Fixpoint reportsOf (t : list Effect) : list Playstate.t :=
  match t with
  | [] => []
  | Report p :: rest => p :: reportsOf rest
  | _ :: rest => reportsOf rest
  end.

(** Whether a report issued from render [r] goes out: a client and an item
    with an id. *)
Definition canReport (r : Player) : bool :=
  api r && Js.truthy_string (itemId r).

(** The three ways [stop] gets called: a direct call, the remote command,
    the screen losing focus. *)
Definition isStopEvent (e : Event) : bool :=
  match e with
  | StopPlayback | RemoteStop | ScreenUnfocus => true
  | _ => false
  end.

(** The component as first rendered: the initial values of its [useState],
    [useRef] and [useSharedValue] calls. *)
Definition initialPlayer (api : bool) (params : Params.t)
    (item : option BaseItemDto) (stream : option StreamData) : Player :=
  {| api := api; params := params; item := item; stream := stream;
     isPlaybackStopped := false; isPlaying := false; isBuffering := true;
     selectedTextTrack := None; embededTextTracks := [];
     videoRef := false; firstTime := true;
     progress := 0; isSeeking := false; cacheProgress := 0 |}.

(** The [Video] element gets mounted once a video source exists. *)
Definition mountVideo (s : Player) : Player :=
  {| api := api s; params := params s; item := item s; stream := stream s;
     isPlaybackStopped := isPlaybackStopped s; isPlaying := isPlaying s;
     isBuffering := isBuffering s;
     selectedTextTrack := selectedTextTrack s;
     embededTextTracks := embededTextTracks s;
     videoRef := true; firstTime := firstTime s;
     progress := progress s; isSeeking := isSeeking s;
     cacheProgress := cacheProgress s |}.

(** ** The catalogue in the words of the specification

    Only text-based subtitle streams; of several streams with one display
    title the first is kept; source order is preserved.  [earlier] holds the
    streams already passed. *)
Fixpoint firstOccurrences (earlier subs : list StreamObj) : list StreamObj :=
  match subs with
  | [] => []
  | o :: rest =>
      (if existsb (hasTitle (DisplayTitle (snd o))) earlier then [] else [o])
      ++ firstOccurrences (earlier ++ [o]) rest
  end.

Definition catalogueSpec (streams : list StreamObj) : list StreamObj :=
  firstOccurrences [] (filter isTextSub streams).

(** ** Sample data for the concrete cases *)

Module Sample.

Local Open Scope string_scope.

Definition noConstraints : Params.t :=
  {| Params.itemId := Some "item-1";
     Params.audioIndex := None;
     Params.subtitleIndex := None;
     Params.mediaSourceId := None;
     Params.bitrateValue := None |}.

Definition withSubtitle (i : string) : Params.t :=
  {| Params.itemId := Some "item-1";
     Params.audioIndex := Some "1";
     Params.subtitleIndex := Some i;
     Params.mediaSourceId := Some "source-1";
     Params.bitrateValue := None |}.

Definition movie : BaseItemDto :=
  {| Id := Some "item-1";
     UserData := Some {| PlaybackPositionTicks := Some 1200000000 |};
     CanDownload := Some true |}.

Definition lockedMovie : BaseItemDto :=
  {| Id := Some "item-2";
     UserData := None;
     CanDownload := Some false |}.

Definition sub (text : bool) (t : string) (i : Z) : MediaStream :=
  {| Type_ := Some Subtitle;
     IsTextSubtitleStream := Some text;
     DisplayTitle := Js.value t;
     Index := Some i |}.

Definition track (ty : MediaStreamType) (t : string) (i : Z) : MediaStream :=
  {| Type_ := Some ty;
     IsTextSubtitleStream := Some false;
     DisplayTitle := Js.value t;
     Index := Some i |}.

(** Video, audio, three text subtitles (two of them titled "English")
    and one image-based subtitle. *)
Definition streams : list MediaStream :=
  [ track Video "1080p H264" 0;
    track Audio "English - AAC" 1;
    sub true "English" 2;
    sub true "English" 3;
    sub true "Director's Commentary" 4;
    sub false "English - PGS" 5 ].

Definition source : MediaSourceInfo :=
  {| MediaStreams := Some streams; SupportsDirectPlay := Some true |}.

Definition hls : StreamData :=
  {| mediaSource := source;
     sessionId := "session-1";
     url := "http://server/videos/item-1/master.m3u8" |}.

(** A session whose item and stream are loaded and whose [Video] element
    is mounted. *)
Definition player (p : Params.t) : Player :=
  mountVideo (initialPlayer true p (Some movie) (Some hls)).

End Sample.

(** ** Notions used in the statements *)

(** No handler touches the client, the launch parameters or the query
    results. *)
Definition sameSession (s s' : Player) : Prop :=
  api s' = api s /\ params s' = params s /\ item s' = item s
  /\ stream s' = stream s.

(** Whether a step is a call of [stop] whose stopped report goes out. *)
Definition stopGoesOut (s : Player) (st : Step) : bool :=
  isStopEvent (snd st) && canReport (closureOf st s).

Inductive Transport : Type := CallPlay | CallPause.

Definition transportEvent (t : Transport) : Event :=
  match t with
  | CallPlay => Play
  | CallPause => Pause
  end.

Definition transportStep (c : option Player * Transport) : Step :=
  (fst c, transportEvent (snd c)).

(** Whether a call is a [play] whose start report goes out. *)
Definition startGoesOut (s : Player) (c : option Player * Transport) : bool :=
  match snd c with
  | CallPlay => canReport (closureOf (transportStep c) s)
  | CallPause => false
  end.

(** The events that call [play] directly, and the engine's load event,
    which calls it while the [firstTime] ref is still set. *)
Definition isPlayEvent (e : Event) : bool :=
  match e with
  | Play | RemotePlay | ScreenFocus => true
  | _ => false
  end.

Definition isLoadEvent (e : Event) : bool :=
  match e with
  | EngineLoad => true
  | _ => false
  end.

Definition playRuns (e : Event) (first : bool) : bool :=
  isPlayEvent e || (isLoadEvent e && first).

(** The number of runs of [play] in a session whose start report goes out;
    [first] is the value of the [firstTime] ref. *)
Fixpoint startsGoingOut (steps : list Step) (s : Player) (first : bool)
  : nat :=
  match steps with
  | [] => 0%nat
  | st :: rest =>
      ((if playRuns (snd st) first && canReport (closureOf st s)
        then 1 else 0)
       + startsGoingOut rest s (first && negb (isLoadEvent (snd st))))%nat
  end.

(** [forwarded n o]: the report field [o] carries exactly a non-zero
    number [n]. *)
Definition forwarded (n : option Js.number) (o : option Z) : Prop :=
  forall z : Z, o = Some z <-> (n = Some (Js.Num z) /\ z <> 0).

(** The slider of the controls is being dragged. *)
Definition dragging (s : Player) : Player := setIsSeeking true s.

(** Playback has reached five seconds. *)
Definition fiveSecondsIn (s : Player) : Player := setProgress 50000000 s.

(** The first media source of the playback info supports direct play. *)
Definition supportsDirectPlay (info : PlaybackInfoResponse) : Prop :=
  exists src : MediaSourceInfo,
    DownloadItem.firstSource info = Some src
    /\ SupportsDirectPlay src = Some true.

(** The item is flagged as downloadable. *)
Definition downloadable (it : BaseItemDto) : Prop :=
  CanDownload it = Some true.

(** The display title of a stream object. *)
Definition titleOf (o : StreamObj) : Js.nullable string :=
  DisplayTitle (snd o).

(** * The rest of the components *)

(** ** Sessions run from up-to-date renders *)

Definition fresh (events : list Event) : list Step :=
  map (fun e => (None, e)) events.

Definition isEngineCommand (e : Effect) : bool :=
  match e with
  | VideoResume | VideoPause | VideoSeek _ => true
  | _ => false
  end.

(** The events of the controls and of the remote channel that drive the
    transport: play, pause, seek and the pause toggle. *)
Definition isTransportEvent (e : Event) : bool :=
  match e with
  | Play | Pause | Seek _ | TogglePlay _
  | RemotePlay | RemotePause | ScreenFocus => true
  | _ => false
  end.

Definition isTogglePlay (e : Event) : bool :=
  match e with
  | TogglePlay _ => true
  | _ => false
  end.

(** ** The stream query of the player *)

Inductive QueryResult (A : Type) : Type :=
| QueryError (message : string)
| QueryData (data : A).
Arguments QueryError {A} message.
Arguments QueryData {A} data.

(** What [getStreamUrl] resolves to, when it resolves to an object. *)
Record StreamUrlResult : Type := {
  res_mediaSource : option MediaSourceInfo;
  res_sessionId : option string;
  res_url : option string
}.

(** The ["stream-url"] query: [res] is the value [getStreamUrl] resolved
    to ([null] and [undefined] are [None]). *)
Definition streamQueryFn (api : bool) (item : option BaseItemDto)
    (res : option StreamUrlResult) : QueryResult (option StreamData) :=
  if negb api then QueryError "No api"
  else
    match item with
    | None => QueryData None
    | Some _ =>
        match res with
        | None => QueryData None
        | Some r =>
            match res_sessionId r, res_mediaSource r, res_url r with
            | Some sid, Some ms, Some u =>
                if negb (Js.truthy_string (res_sessionId r))
                   || negb (Js.truthy_string (res_url r))
                then QueryData None
                else QueryData
                       (Some {| mediaSource := ms; sessionId := sid;
                                url := u |})
            | _, _, _ => QueryData None
            end
        end
    end.

(** ** What the player renders *)

Record QueryFlags : Type := {
  isLoadingItem : bool;
  isErrorItem : bool;
  isLoadingStreamUrl : bool;
  isErrorStreamUrl : bool
}.

(** The loader, the error text, or the player: the [Video] element when a
    video source exists (the text "No video source..." otherwise) and the
    [Controls] when an item exists. *)
Inductive PlayerView : Type :=
| LoaderView
| ErrorView
| VideoView (video : option VideoSource) (controls : bool).

Definition renderPlayer (q : QueryFlags) (r : Player) : PlayerView :=
  if isLoadingItem q || isLoadingStreamUrl q then LoaderView
  else if isErrorItem q || isErrorStreamUrl q then ErrorView
  else VideoView (videoSource r)
                 (match item r with Some _ => true | None => false end).

(** ** Audio tracks

    The state [audioTracks] is kept beside the component record. *)

(** [onAudioTracks]: what [setAudioTracks] receives. *)
Definition onAudioTracks (tracks : list TextTrack) : list TrackInfo :=
  map (fun t =>
         {| ti_name := match title t with Some n => n | None => "" end;
            ti_index := index t;
            ti_language := language t |})
      tracks.

(** [getAudioTracks]: name and index only. *)
Definition getAudioTracks (audioTracks : list TrackInfo) : list TrackInfo :=
  map (fun t =>
         {| ti_name := ti_name t;
            ti_index := ti_index t;
            ti_language := None |})
      audioTracks.

(** ** What the download button renders *)

Module DownloadView.

(** The running download of the [runningProcesses] atom. *)
Record Process : Type := {
  process_item : BaseItemDto;
  process_progress : Q
}.

Inductive View : Type :=
| Spinner
| DisabledIcon
| DisabledButton
| CancelButton (progress : Q)
| OpenOffline (route : string)
| DownloadButton
| RenderThrows.

(** [playbackInfo?.MediaSources?.[0].SupportsDirectPlay === false]: the
    chain stops at a missing [playbackInfo] or [MediaSources], but element
    0 of an empty array is [undefined] and reading a property of it throws;
    [None] stands for that. *)
Definition directPlayDenied (playbackInfo : option PlaybackInfoResponse)
  : option bool :=
  match playbackInfo with
  | None => Some false
  | Some info =>
      match MediaSources info with
      | None => Some false
      | Some [] => None
      | Some (src :: _) =>
          match SupportsDirectPlay src with
          | Some false => Some true
          | _ => Some false
          end
      end
  end.

(** [a !== b] on ids that may be undefined. *)
Definition differentId (a b : option string) : bool :=
  match a, b with
  | Some x, Some y => negb (String.eqb x y)
  | None, None => false
  | _, _ => true
  end.

(** An id inside a template literal. *)
Definition idText (a : option string) : string :=
  match a with
  | Some x => x
  | None => "undefined"
  end.

Definition offlineRoute (it : BaseItemDto) : string :=
  String.append "/(auth)/player/offline/page?url="
    (String.append (idText (Id it))
       (String.append ".mp4&itemId=" (idText (Id it)))).

Definition render (isLoading : bool)
    (playbackInfo : option PlaybackInfoResponse) (process : option Process)
    (downloaded : bool) (it : BaseItemDto) : View :=
  if isLoading then Spinner
  else
    match directPlayDenied playbackInfo with
    | None => RenderThrows
    | Some true => DisabledIcon
    | Some false =>
        match process with
        | Some p =>
            if differentId (Id (process_item p)) (Id it)
            then DisabledButton
            else CancelButton (process_progress p)
        | None =>
            if downloaded then OpenOffline (offlineRoute it)
            else DownloadButton
        end
    end.

(** The effect keyed on [process]: [stored] is the parsed list of
    ["downloaded_files"] (the empty list when the key is missing); the
    effect sets [downloaded] and never clears it. *)
Definition downloadedEffect (stored : list BaseItemDto) (it : BaseItemDto)
    (downloaded : bool) : bool :=
  match Js.find (fun d => negb (differentId (Id d) (Id it))) stored with
  | Some _ => true
  | None => downloaded
  end.

End DownloadView.

(** ** The inline [VideoPlayer] component ([components/VideoPlayer.tsx])

    Its handlers are inline functions, rebuilt by every render, so they read
    the current state.  [reportPlaybackProgress] and [reportPlaybackStopped]
    are imported helpers; the trace records the calls with their
    arguments. *)

Module InlinePlayer.

Record Props : Type := {
  itemId : string;
  item : option BaseItemDto;
  playSessionId : option string
}.

(** [maxBitrate], [progress] and whether [videoRef.current] is set.  The
    [paused] state is never written and stays [true]. *)
Record State : Type := {
  maxBitrate : option Z;
  progress : Q;
  videoRef : bool
}.

Inductive Call : Type :=
| ReportPlaybackProgress (itemId : string) (positionTicks : Q)
    (sessionId : option string)
| ReportPlaybackStopped (itemId : option string) (positionTicks : Q)
    (sessionId : option string)
| EnginePause
| EngineResume.

Definition onProgress (p : Props) (data : OnProgressData) (s : State)
  : State * list Call :=
  ({| maxBitrate := maxBitrate s;
      progress := currentTime data * 10000000;
      videoRef := videoRef s |},
   [ReportPlaybackProgress (itemId p) (currentTime data * 10000000)
      (playSessionId p)]).

Definition onFullscreenPlayerDidDismiss (p : Props) (s : State)
  : State * list Call :=
  (s, (if videoRef s then [EnginePause] else [])
      ++ [ReportPlaybackStopped (option_bind (item p) Id) (progress s)
            (playSessionId p)]).

Definition onFullscreenPlayerDidPresent (p : Props) (s : State)
  : State * list Call :=
  (s, if videoRef s then [EngineResume] else []).

(** A fullscreen viewing: progress samples, then the dismissal. *)
Fixpoint samples (p : Props) (l : list OnProgressData) (s : State)
  : State * list Call :=
  match l with
  | [] => (s, [])
  | d :: rest =>
      let '(s1, t1) := onProgress p d s in
      let '(s2, t2) := samples p rest s1 in
      (s2, t1 ++ t2)
  end.

Definition viewing (p : Props) (l : list OnProgressData) (s : State)
  : State * list Call :=
  let '(s1, t1) := samples p l s in
  let '(s2, t2) := onFullscreenPlayerDidDismiss p s1 in
  (s2, t1 ++ t2).

Definition isProgressCall (c : Call) : bool :=
  match c with
  | ReportPlaybackProgress _ _ _ => true
  | _ => false
  end.

Definition stoppedPositions (t : list Call) : list Q :=
  flat_map (fun c => match c with
                     | ReportPlaybackStopped _ pos _ => [pos]
                     | _ => []
                     end) t.

End InlinePlayer.

Definition isPlaybackStateEvent (e : Event) : bool :=
  match e with
  | EnginePlaybackState _ => true
  | _ => false
  end.



(** The load events of the engine, each run with the [play] of a render. *)
Definition loads (renders : list Player) : list Step :=
  map (fun r => (Some r, EngineLoad)) renders.

(** The entry of the track list for a discovered track. *)
Definition trackInfoOf (t : TextTrack) : TrackInfo :=
  {| ti_name := match title t with Some n => n | None => EmptyString end;
     ti_index := index t;
     ti_language := language t |}.

(** Whether the list of downloaded files holds an item with the id of
    [it]. *)
Definition storedHas (it : BaseItemDto) (stored : list BaseItemDto) : bool :=
  existsb (fun d => negb (DownloadView.differentId (Id d) (Id it))) stored.

(** The command the pause toggle sends to the engine from a render. *)
Definition toggleCommand (r : Player) : Effect :=
  if isPlaying r then VideoPause else VideoResume.

(** The engine's progress event, the one event whose handler reads
    [isPlaybackStopped]. *)
Definition isProgressEvent (e : Event) : bool :=
  match e with
  | EngineProgress _ => true
  | _ => false
  end.

(** The command a call of [play] or [pause] hands to the engine. *)
Definition transportCommand (c : option Player * Transport) : Effect :=
  match snd c with
  | CallPlay => VideoResume
  | CallPause => VideoPause
  end.

(** The component after a progress sample that passed the guards on
    [isSeeking] and [isPlaybackStopped]: position, buffered position and
    buffering flag come from the sample. *)
Definition recorded (d : OnProgressData) (s : Player) : Player :=
  setIsBuffering (Qeq_bool (playableDuration d) 0)
    (setCacheProgress (secondsToTicks (playableDuration d))
       (setProgress (secondsToTicks (currentTime d)) s)).

(** The slider of the controls, which alone writes [isSeeking]. *)
Definition isSliderEvent (e : Event) : bool :=
  match e with
  | Slider _ => true
  | _ => false
  end.

(** * Checks of the JavaScript helpers *)

Example parseInt_3 : Js.parseInt "3" = Js.Num 3.
Proof. reflexivity. Qed.

Example parseInt_minus_1 : Js.parseInt "-1" = Js.Num (-1).
Proof. reflexivity. Qed.

Example parseInt_12px : Js.parseInt " 12px" = Js.Num 12.
Proof. reflexivity. Qed.

Example parseInt_abc : Js.parseInt "abc" = Js.NaN.
Proof. reflexivity. Qed.

Example parseInt_nbsp :
  Js.parseInt (String "194" (String "160" "42")) = Js.Num 42.
Proof. reflexivity. Qed.

Example parseInt_line_separator :
  Js.parseInt (String "226" (String "128" (String "168" "-7"))) = Js.Num (-7).
Proof. reflexivity. Qed.

Example parseInt_two_to_53 :
  Js.parseInt "9007199254740993" = Js.Num 9007199254740992
  /\ Js.parseInt "9007199254740995" = Js.Num 9007199254740996
  /\ Js.parseInt "-9007199254740993" = Js.Num (-9007199254740992)
  /\ Js.parseInt "9007199254740991" = Js.Num 9007199254740991
  /\ Js.parseInt "123456789012345678901" = Js.Num 123456789012345683968.
Proof. repeat split. Qed.

Example includes_m3u8 :
  Js.includes "m3u8" "http://host/videos/1/master.m3u8?x=1" = true.
Proof. reflexivity. Qed.

Example includes_mp4 : Js.includes "m3u8" "http://host/videos/1/stream.mp4" = false.
Proof. reflexivity. Qed.

Example round_half_up : Js.Math_round (5 # 2) = 3 /\ Js.Math_round (-5 # 2) = -2.
Proof. split; reflexivity. Qed.

(** * Properties *)

(** ** Traces *)

Lemma countReports_app (k : ReportKind) (t u : list Effect) :
  countReports k (t ++ u) = (countReports k t + countReports k u)%nat.
Proof.
  unfold countReports. rewrite filter_app, length_app. reflexivity.
Qed.

Lemma countReports_onVideo (k : ReportKind) (s : Player) (e : Effect) :
  isReport k e = false -> countReports k (onVideo s e) = 0%nat.
Proof.
  intros He. unfold onVideo, countReports.
  destruct (videoRef s); simpl; [rewrite He|]; reflexivity.
Qed.

Lemma reportsOf_app (t u : list Effect) :
  reportsOf (t ++ u) = reportsOf t ++ reportsOf u.
Proof.
  induction t as [|e t IH]; simpl; [reflexivity|].
  destruct e; simpl; rewrite ?IH; reflexivity.
Qed.

Lemma reportsOf_onVideo (s : Player) (e : Effect) :
  (forall p, e <> Report p) -> reportsOf (onVideo s e) = [].
Proof.
  intros He. unfold onVideo. destruct (videoRef s); [|reflexivity].
  destruct e; try reflexivity. exfalso. apply (He p). reflexivity.
Qed.

Lemma reportsOf_callPlaystate (r : Player) (p : Playstate.t) :
  reportsOf (callPlaystate r p) = if api r then [p] else [].
Proof. unfold callPlaystate. destruct (api r); reflexivity. Qed.

(** The start and stopped reports go out exactly when the closure that
    issues them holds a client and an item with an id. *)
Lemma reportPlaybackStart_canReport (r : Player) :
  reportPlaybackStart r = if canReport r then [Report (startReport r)] else [].
Proof.
  unfold reportPlaybackStart, canReport, callPlaystate.
  destruct (api r), (Js.truthy_string (itemId r)); reflexivity.
Qed.

Lemma reportPlaybackStopped_canReport (r s : Player) :
  reportPlaybackStopped r s =
  if canReport r
  then [Report (stoppedReport r (Js.Math_floor (progress s)))]
  else [].
Proof.
  unfold reportPlaybackStopped, canReport, callPlaystate.
  destruct (api r), (Js.truthy_string (itemId r)); reflexivity.
Qed.

Lemma sameSession_refl (s : Player) : sameSession s s.
Proof. repeat split. Qed.

Lemma sameSession_trans (a b c : Player) :
  sameSession a b -> sameSession b c -> sameSession a c.
Proof.
  unfold sameSession. intros (A1 & A2 & A3 & A4) (B1 & B2 & B3 & B4).
  repeat split; congruence.
Qed.

Lemma textTracksEffect_sameSession (r s : Player) :
  sameSession s (fst (textTracksEffect r s)).
Proof.
  unfold textTracksEffect.
  destruct (chosenSubtitleTrack r), (selectedTextTrack r);
    simpl; repeat split.
Qed.

Lemma dispatch_sameSession (e : Event) (r s : Player) :
  sameSession s (fst (dispatch e r s)).
Proof.
  destruct e; simpl;
    try solve [unfold play, pause, seek, togglePlay, setSubtitleTrack, stop,
                 onPlaybackStateChanged, onBuffer; simpl;
               repeat match goal with
                      | |- context [if ?b then _ else _] => destruct b
                      end; simpl; repeat split].
  - (* EngineProgress *)
    unfold onProgress.
    destruct (isSeeking s); [repeat split|].
    destruct (isPlaybackStopped r); [repeat split|].
    destruct (negb _ || _); simpl; repeat split.
  - (* EngineLoad *)
    unfold onLoad, play. destruct (firstTime s); simpl; repeat split.
  - (* EngineTextTracks *)
    unfold discover.
    eapply sameSession_trans; [|apply textTracksEffect_sameSession].
    simpl. repeat split.
Qed.

Lemma canReport_sameSession (s s' : Player) :
  sameSession s s' -> canReport s' = canReport s.
Proof.
  intros (A1 & A2 & A3 & A4). unfold canReport, itemId.
  rewrite A1, A3. reflexivity.
Qed.

Lemma step_sameSession (st : Step) (s : Player) :
  sameSession s (fst (step st s)).
Proof. apply dispatch_sameSession. Qed.

Lemma run_sameSession (steps : list Step) (s : Player) :
  sameSession s (fst (run steps s)).
Proof.
  revert s. induction steps as [|st steps IH]; intros s; simpl.
  - apply sameSession_refl.
  - pose proof (step_sameSession st s) as H1.
    destruct (step st s) as [s1 t1]. simpl in H1.
    pose proof (IH s1) as H2.
    destruct (run steps s1) as [s2 t2]. simpl in *.
    eapply sameSession_trans; eassumption.
Qed.

(** ** Reports, handler by handler *)

(** The reports of each handler. *)
Lemma reportsOf_play (r s : Player) :
  reportsOf (snd (play r s))
  = if canReport r then [startReport r] else [].
Proof.
  unfold play. cbn [snd].
  rewrite reportsOf_app, reportsOf_onVideo by discriminate.
  rewrite reportPlaybackStart_canReport.
  destruct (canReport r); reflexivity.
Qed.

Lemma reportsOf_stop (r s : Player) :
  reportsOf (snd (stop r s))
  = if canReport r
    then [stoppedReport r (Js.Math_floor (progress s))]
    else [].
Proof.
  unfold stop. cbn [snd].
  rewrite reportsOf_app, reportsOf_onVideo by discriminate.
  rewrite reportPlaybackStopped_canReport.
  destruct (canReport r); reflexivity.
Qed.

Lemma reportsOf_pause (r s : Player) : reportsOf (snd (pause r s)) = [].
Proof. unfold pause. cbn [snd]. apply reportsOf_onVideo. discriminate. Qed.

Lemma reportsOf_seek (q : Q) (r s : Player) :
  reportsOf (snd (seek q r s)) = [].
Proof. unfold seek. cbn [snd]. apply reportsOf_onVideo. discriminate. Qed.

Lemma reportsOf_togglePlay (ticks : Q) (r s : Player) :
  reportsOf (snd (togglePlay ticks r s))
  = if api r
    then [progressReport r (Js.Math_floor ticks) (isPlaying r)]
    else [].
Proof.
  unfold togglePlay.
  destruct (isPlaying r); cbn [snd reportsOf];
    rewrite reportsOf_app, reportsOf_onVideo, reportsOf_callPlaystate
      by discriminate;
    reflexivity.
Qed.

Lemma reportsOf_onProgress (d : OnProgressData) (r s : Player) :
  reportsOf (snd (onProgress d r s)) = []
  \/ reportsOf (snd (onProgress d r s))
     = [progressReport r (Js.Math_round (secondsToTicks (currentTime d)))
          (negb (isPlaying r))].
Proof.
  unfold onProgress.
  destruct (isSeeking s); [left; reflexivity|].
  destruct (isPlaybackStopped r); [left; reflexivity|].
  destruct (negb _ || _); [left; reflexivity|]. cbn [snd].
  rewrite reportsOf_callPlaystate.
  destruct (api r); [right|left]; reflexivity.
Qed.

Lemma reportsOf_discover (tracks : list TextTrack) (s : Player) :
  reportsOf (snd (discover tracks s)) = [].
Proof.
  unfold discover, textTracksEffect.
  destruct (chosenSubtitleTrack (fst (onTextTracks tracks s s)));
    [|reflexivity].
  destruct (selectedTextTrack (fst (onTextTracks tracks s s)));
    reflexivity.
Qed.

(** ** Stop reports *)

Lemma countReports_reportsOf (k : ReportKind) (t : list Effect) :
  countReports k t
  = List.length
      (filter (fun p => ReportKind_eqb (Playstate.kind p) k) (reportsOf t)).
Proof.
  unfold countReports. induction t as [|e t IH]; [reflexivity|].
  destruct e; cbn [filter isReport reportsOf]; try exact IH.
  destruct (ReportKind_eqb (Playstate.kind p) k); cbn [List.length];
    rewrite IH; reflexivity.
Qed.

(** Only [stop] sends stopped reports, one per call that can report. *)
Lemma dispatch_stopped_count (e : Event) (r s : Player) :
  countReports onPlaybackStopped (snd (dispatch e r s))
  = if isStopEvent e && canReport r then 1%nat else 0%nat.
Proof.
  rewrite countReports_reportsOf.
  destruct e; cbn [dispatch isStopEvent andb];
    rewrite ?reportsOf_play, ?reportsOf_stop, ?reportsOf_pause,
      ?reportsOf_seek, ?reportsOf_togglePlay, ?reportsOf_discover;
    try reflexivity;
    try (destruct (canReport r); reflexivity);
    try (destruct (api r); reflexivity).
  - (* EngineProgress *)
    destruct (reportsOf_onProgress data r s) as [-> | ->]; reflexivity.
  - (* EngineLoad *)
    unfold onLoad. destruct (firstTime s); [|reflexivity].
    assert (E : snd (let '(s1, t) := play r s in (setFirstTime false s1, t))
                = snd (play r s)) by reflexivity.
    rewrite E, reportsOf_play. destruct (canReport r); reflexivity.
  - (* EnginePlaybackState *)
    unfold onPlaybackStateChanged. destruct (isSeeking s); reflexivity.
Qed.

(** [isPlaybackStopped] is set by [stop] and reset by nothing. *)
Lemma dispatch_isPlaybackStopped (e : Event) (r s : Player) :
  isPlaybackStopped (fst (dispatch e r s))
  = isPlaybackStopped s || isStopEvent e.
Proof.
  destruct e; cbn [dispatch isStopEvent];
    rewrite ?orb_false_r, ?orb_true_r; try reflexivity.
  - unfold togglePlay. destruct (isPlaying r); reflexivity.
  - unfold onProgress.
    destruct (isSeeking s); [reflexivity|].
    destruct (isPlaybackStopped r); [reflexivity|].
    destruct (negb _ || _); reflexivity.
  - unfold onLoad, play. destruct (firstTime s); reflexivity.
  - unfold onPlaybackStateChanged. destruct (isSeeking s); reflexivity.
  - unfold discover, textTracksEffect.
    destruct (chosenSubtitleTrack (fst (onTextTracks tracks s s)));
      [|reflexivity].
    destruct (selectedTextTrack (fst (onTextTracks tracks s s)));
      reflexivity.
Qed.

Lemma stopGoesOut_sameSession (s s' : Player) :
  sameSession s s' ->
  forall st, stopGoesOut s' st = stopGoesOut s st.
Proof.
  intros H [[r|] e]; unfold stopGoesOut, closureOf; cbn [fst snd];
    [reflexivity|].
  rewrite (canReport_sameSession s s' H). reflexivity.
Qed.

Lemma filter_ext_all {A : Type} (f g : A -> bool) (l : list A) :
  (forall a, f a = g a) -> filter f l = filter g l.
Proof.
  intros H. induction l as [|a l IH]; simpl; [reflexivity|].
  rewrite H, IH. reflexivity.
Qed.

Lemma stop_full (r s : Player) :
  stop r s
  = (setIsPlaybackStopped true s,
     (if videoRef s then [VideoPause] else [])
     ++ (if canReport r
         then [Report (stoppedReport r (Js.Math_floor (progress s)))]
         else [])).
Proof.
  unfold stop, onVideo. rewrite reportPlaybackStopped_canReport.
  reflexivity.
Qed.

(** Apart from the engine's progress callback no handler reads
    [isPlaybackStopped]. *)
Lemma trace_ignores_isPlaybackStopped (e : Event) (b b' : bool)
    (r s : Player) :
  isProgressEvent e = false ->
  snd (dispatch e (setIsPlaybackStopped b r) (setIsPlaybackStopped b' s))
  = snd (dispatch e r s).
Proof.
  destruct e; cbn [isProgressEvent]; intros H; try discriminate H;
    cbn [dispatch]; try reflexivity.
  - unfold togglePlay.
    change (isPlaying (setIsPlaybackStopped b r)) with (isPlaying r).
    destruct (isPlaying r); reflexivity.
  - unfold onLoad.
    change (firstTime (setIsPlaybackStopped b' s)) with (firstTime s).
    destruct (firstTime s); reflexivity.
  - unfold onPlaybackStateChanged.
    change (isSeeking (setIsPlaybackStopped b' s)) with (isSeeking s).
    destruct (isSeeking s); reflexivity.
  - unfold discover, textTracksEffect. cbn [onTextTracks fst].
    change (chosenSubtitleTrack
              (setEmbededTextTracks tracks (setIsPlaybackStopped b' s)))
      with (chosenSubtitleTrack (setEmbededTextTracks tracks s)).
    change (selectedTextTrack
              (setEmbededTextTracks tracks (setIsPlaybackStopped b' s)))
      with (selectedTextTrack (setEmbededTextTracks tracks s)).
    destruct (chosenSubtitleTrack (setEmbededTextTracks tracks s));
      [|reflexivity].
    destruct (selectedTextTrack (setEmbededTextTracks tracks s));
      reflexivity.
Qed.

(** The value of [isPlaybackStopped] a render captured matters to the
    progress callback alone. *)
Lemma captured_flag_unread (e : Event) (b : bool) (r s : Player) :
  isProgressEvent e = false ->
  dispatch e (setIsPlaybackStopped b r) s = dispatch e r s.
Proof.
  destruct e; cbn [isProgressEvent]; intros H; try discriminate H;
    reflexivity.
Qed.

(** The progress callback does not read the live flag. *)
Lemma onProgress_live_flag_unread (d : OnProgressData) (b : bool)
    (r s : Player) :
  snd (onProgress d r (setIsPlaybackStopped b s)) = snd (onProgress d r s).
Proof.
  unfold onProgress.
  change (isSeeking (setIsPlaybackStopped b s)) with (isSeeking s).
  destruct (isSeeking s); [reflexivity|].
  destruct (isPlaybackStopped r); [reflexivity|].
  destruct (negb _ || _); reflexivity.
Qed.

(** C1 (as the code has it). In any session, whatever else happens between
    the calls, every call of [stop] sends its own "stopped" report, whether
    it is a direct call, the remote command or the screen losing focus: the
    number of "stopped" reports is the number of [stop] calls whose closure
    holds a client and an item id, so N such calls send N reports, not one.
    Each call sets [isPlaybackStopped], which nothing resets, pauses the
    engine when a Video element is mounted, and sends the report with the
    floor of the live position.  [stop] does not read the flag, neither its
    live value nor the value its closure captured.  No handler reads the
    live flag; of the values renders captured, only the one of the engine's
    progress callback is read, and that callback returns at once when its
    render is stopped. *)
Theorem stop_reports_on_every_call :
  forall (steps : list Step) (s : Player),
    countReports onPlaybackStopped (snd (run steps s))
    = List.length (filter (stopGoesOut s) steps)
    /\ isPlaybackStopped (fst (run steps s))
       = isPlaybackStopped s || existsb (fun st => isStopEvent (snd st)) steps
    /\ (forall r : Player,
          stop r s
          = (setIsPlaybackStopped true s,
             (if videoRef s then [VideoPause] else [])
             ++ (if canReport r
                 then [Report (stoppedReport r (Js.Math_floor (progress s)))]
                 else [])))
    /\ (forall (b b' : bool) (r : Player),
          snd (stop (setIsPlaybackStopped b r) (setIsPlaybackStopped b' s))
          = snd (stop r s))
    /\ (forall (e : Event) (b b' : bool) (r : Player),
          isProgressEvent e = false ->
          snd (dispatch e (setIsPlaybackStopped b r)
                 (setIsPlaybackStopped b' s))
          = snd (dispatch e r s))
    /\ (forall (e : Event) (b : bool) (r : Player),
          isProgressEvent e = false ->
          dispatch e (setIsPlaybackStopped b r) s = dispatch e r s)
    /\ (forall (d : OnProgressData) (b : bool) (r : Player),
          snd (onProgress d r (setIsPlaybackStopped b s))
          = snd (onProgress d r s))
    /\ (forall (d : OnProgressData) (r : Player),
          onProgress d (setIsPlaybackStopped true r) s = (s, [])).
Proof.
  intros steps s.
  split; [|split; [|split; [|split; [|split; [|split; [|split]]]]]].
  - revert s. induction steps as [|st steps IH]; intros s; [reflexivity|].
    cbn [run].
    pose proof (dispatch_stopped_count (snd st) (closureOf st s) s) as Hc.
    pose proof (step_sameSession st s) as Hs.
    fold (step st s) in Hc. fold (stopGoesOut s st) in Hc.
    destruct (step st s) as [s1 t1]. cbn [fst snd] in Hc, Hs.
    specialize (IH s1). destruct (run steps s1) as [s2 t2].
    cbn [snd] in *. rewrite countReports_app, Hc, IH.
    rewrite (filter_ext_all _ _ steps (stopGoesOut_sameSession s s1 Hs)).
    cbn [filter]. destruct (stopGoesOut s st); reflexivity.
  - revert s. induction steps as [|st steps IH]; intros s;
      [cbn; rewrite orb_false_r; reflexivity|].
    cbn [run existsb].
    pose proof (dispatch_isPlaybackStopped (snd st) (closureOf st s) s) as Hf.
    fold (step st s) in Hf.
    destruct (step st s) as [s1 t1]. cbn [fst] in Hf.
    specialize (IH s1). destruct (run steps s1) as [s2 t2].
    cbn [fst] in *. rewrite IH, Hf, orb_assoc. reflexivity.
  - intros r. apply stop_full.
  - intros b b' r. reflexivity.
  - intros e b b' r. apply trace_ignores_isPlaybackStopped.
  - intros e b r. apply captured_flag_unread.
  - intros d b r. apply onProgress_live_flag_unread.
  - intros d r. unfold onProgress. destruct (isSeeking s); reflexivity.
Qed.

(** C1 fails as stated: an explicit stop followed by the teardown of the
    screen sends two "stopped" reports. *)
Lemma stop_twice_reports_twice :
  countReports onPlaybackStopped
    (snd (run [(None, StopPlayback); (None, ScreenUnfocus)]
              (Sample.player Sample.noConstraints)))
  = 2%nat.
Proof. vm_compute. reflexivity. Qed.

(** ** Start reports *)

Lemma play_count (r s : Player) :
  countReports onPlaybackStart (snd (play r s)) =
  if canReport r then 1%nat else 0%nat.
Proof.
  unfold play. cbn [snd].
  rewrite countReports_app, countReports_onVideo by reflexivity.
  rewrite reportPlaybackStart_canReport.
  destruct (canReport r); reflexivity.
Qed.

Lemma pause_count (k : ReportKind) (r s : Player) :
  countReports k (snd (pause r s)) = 0%nat.
Proof.
  unfold pause. cbn [snd]. apply countReports_onVideo. reflexivity.
Qed.

Lemma transport_count (c : option Player * Transport) (s : Player) :
  countReports onPlaybackStart (snd (step (transportStep c) s)) =
  if startGoesOut s c then 1%nat else 0%nat.
Proof.
  destruct c as [o []]; unfold startGoesOut, step; cbn [snd fst transportStep
    transportEvent dispatch].
  - apply play_count.
  - apply pause_count.
Qed.

Lemma startGoesOut_sameSession (s s' : Player) :
  sameSession s s' ->
  forall c, startGoesOut s' c = startGoesOut s c.
Proof.
  intros H [[r|] []]; unfold startGoesOut, closureOf; simpl;
    try reflexivity.
  apply canReport_sameSession. exact H.
Qed.

(** [play] runs on the play events and on the first load; each run sends
    one start report when its closure can report. *)
Lemma dispatch_start_count (e : Event) (r s : Player) :
  countReports onPlaybackStart (snd (dispatch e r s))
  = if playRuns e (firstTime s) && canReport r then 1%nat else 0%nat.
Proof.
  rewrite countReports_reportsOf. unfold playRuns.
  destruct e; cbn [dispatch isPlayEvent isLoadEvent orb andb];
    rewrite ?reportsOf_play, ?reportsOf_stop, ?reportsOf_pause,
      ?reportsOf_seek, ?reportsOf_togglePlay, ?reportsOf_discover;
    try reflexivity;
    try (destruct (canReport r); reflexivity);
    try (destruct (api r); reflexivity).
  - (* EngineProgress *)
    destruct (reportsOf_onProgress data r s) as [-> | ->]; reflexivity.
  - (* EngineLoad *)
    unfold onLoad. destruct (firstTime s); [|reflexivity].
    assert (E : snd (let '(s1, t) := play r s in (setFirstTime false s1, t))
                = snd (play r s)) by reflexivity.
    rewrite E, reportsOf_play. destruct (canReport r); reflexivity.
  - (* EnginePlaybackState *)
    unfold onPlaybackStateChanged. destruct (isSeeking s); reflexivity.
Qed.

(** The [firstTime] ref is cleared by the first load and set by nothing. *)
Lemma dispatch_firstTime (e : Event) (r s : Player) :
  firstTime (fst (dispatch e r s)) = firstTime s && negb (isLoadEvent e).
Proof.
  destruct e; cbn [dispatch isLoadEvent negb];
    rewrite ?andb_true_r, ?andb_false_r; try reflexivity.
  - unfold togglePlay. destruct (isPlaying r); reflexivity.
  - unfold onProgress.
    destruct (isSeeking s); [reflexivity|].
    destruct (isPlaybackStopped r); [reflexivity|].
    destruct (negb _ || _); reflexivity.
  - unfold onLoad, play. destruct (firstTime s) eqn:E; [reflexivity|exact E].
  - unfold onPlaybackStateChanged. destruct (isSeeking s); reflexivity.
  - unfold discover, textTracksEffect.
    destruct (chosenSubtitleTrack (fst (onTextTracks tracks s s)));
      [|reflexivity].
    destruct (selectedTextTrack (fst (onTextTracks tracks s s)));
      reflexivity.
Qed.

Lemma startsGoingOut_sameSession (steps : list Step) (s s' : Player)
    (first : bool) :
  sameSession s s' ->
  startsGoingOut steps s' first = startsGoingOut steps s first.
Proof.
  intros H. revert first.
  induction steps as [|st steps IH]; intros first; [reflexivity|].
  cbn [startsGoingOut]. rewrite IH.
  destruct st as [[r|] e]; unfold closureOf; cbn [fst snd]; [reflexivity|].
  rewrite (canReport_sameSession s s' H). reflexivity.
Qed.

Lemma start_reports_in_any_session (steps : list Step) (s : Player) :
  countReports onPlaybackStart (snd (run steps s))
  = startsGoingOut steps s (firstTime s).
Proof.
  revert s. induction steps as [|st steps IH]; intros s; [reflexivity|].
  cbn [run startsGoingOut].
  pose proof (dispatch_start_count (snd st) (closureOf st s) s) as Hc.
  pose proof (dispatch_firstTime (snd st) (closureOf st s) s) as Hf.
  pose proof (step_sameSession st s) as Hs.
  fold (step st s) in Hc, Hf.
  destruct (step st s) as [s1 t1]. cbn [fst snd] in Hc, Hf, Hs.
  specialize (IH s1). destruct (run steps s1) as [s2 t2].
  cbn [snd] in *.
  rewrite countReports_app, Hc, IH, Hf.
  rewrite (startsGoingOut_sameSession steps s s1 _ Hs). reflexivity.
Qed.

Lemma play_full (r s : Player) :
  play r s
  = (s, (if videoRef s then [VideoResume] else [])
        ++ (if canReport r then [Report (startReport r)] else [])).
Proof.
  unfold play, onVideo. rewrite reportPlaybackStart_canReport. reflexivity.
Qed.

Lemma transport_commands (c : option Player * Transport) (s : Player) :
  fst (step (transportStep c) s) = s
  /\ filter isEngineCommand (snd (step (transportStep c) s))
     = if videoRef s then [transportCommand c] else [].
Proof.
  destruct c as [o []]; unfold step, transportCommand;
    cbn [snd fst transportStep transportEvent dispatch].
  - rewrite play_full. cbn [fst snd]. split; [reflexivity|].
    rewrite filter_app.
    destruct (videoRef s); destruct (canReport _); reflexivity.
  - unfold pause, onVideo. cbn [fst snd]. split; [reflexivity|].
    destruct (videoRef s); reflexivity.
Qed.

Lemma transport_session_commands
    (calls : list (option Player * Transport)) (s : Player) :
  filter isEngineCommand (snd (run (map transportStep calls) s))
  = if videoRef s then map transportCommand calls else [].
Proof.
  induction calls as [|c calls IH]; [destruct (videoRef s); reflexivity|].
  cbn [map run].
  destruct (transport_commands c s) as [H1 H2].
  destruct (step (transportStep c) s) as [s1 t1]. cbn [fst snd] in *.
  subst s1. destruct (run (map transportStep calls) s) as [s2 t2].
  cbn [snd] in *. rewrite filter_app, H2, IH.
  destruct (videoRef s); reflexivity.
Qed.

(** C2 (as the code has it). Every call of [play] tells the engine to
    resume, when a Video element is mounted, and sends a "start" report,
    when its closure holds a client and an item id; [pause] tells the
    engine to pause and sends nothing; neither changes the component.  So
    in a sequence of [play] and [pause] calls the engine gets one command
    per call, in order, and the number of "start" reports is the number of
    [play] calls whose closure can report, not one.  In any session the
    "start" reports are those of the runs of [play]: one for each play
    event and one for the engine's first load, which alone is latched: a
    load runs [play] while the [firstTime] ref is set and clears the
    ref. *)
Theorem start_report_on_every_play :
  forall (calls : list (option Player * Transport)) (s : Player),
    countReports onPlaybackStart (snd (run (map transportStep calls) s))
    = List.length (filter (startGoesOut s) calls)
    /\ filter isEngineCommand (snd (run (map transportStep calls) s))
       = (if videoRef s then map transportCommand calls else [])
    /\ (forall r : Player,
          play r s
          = (s, (if videoRef s then [VideoResume] else [])
                ++ (if canReport r then [Report (startReport r)] else [])))
    /\ (forall r : Player,
          pause r s = (s, if videoRef s then [VideoPause] else []))
    /\ (forall steps : list Step,
          countReports onPlaybackStart (snd (run steps s))
          = startsGoingOut steps s (firstTime s))
    /\ (forall r : Player,
          onLoad r s
          = if firstTime s
            then (setFirstTime false s, snd (play r s))
            else (s, []))
    /\ (forall r : Player, firstTime (fst (onLoad r s)) = false).
Proof.
  intros calls s. split; [|split; [|split; [|split; [|split; [|split]]]]].
  - revert s. induction calls as [|c calls IH]; intros s; [reflexivity|].
    cbn [map run].
    pose proof (transport_count c s) as Hc.
    pose proof (step_sameSession (transportStep c) s) as Hs.
    destruct (step (transportStep c) s) as [s1 t1]. cbn [fst snd] in Hc, Hs.
    specialize (IH s1). destruct (run (map transportStep calls) s1) as [s2 t2].
    cbn [snd] in *. rewrite countReports_app, Hc, IH.
    rewrite (filter_ext_all _ _ calls (startGoesOut_sameSession s s1 Hs)).
    cbn [filter]. destruct (startGoesOut s c); reflexivity.
  - apply transport_session_commands.
  - intros r. apply play_full.
  - intros r. reflexivity.
  - intros steps. apply start_reports_in_any_session.
  - intros r. unfold onLoad, play. destruct (firstTime s); reflexivity.
  - intros r. unfold onLoad, play.
    destruct (firstTime s) eqn:E; [reflexivity|exact E].
Qed.

(** C2 fails as stated: play, pause, play sends two "start" reports. *)
Lemma play_twice_reports_start_twice :
  countReports onPlaybackStart
    (snd (run (map transportStep
                 [(None, CallPlay); (None, CallPause); (None, CallPlay)])
              (Sample.player Sample.noConstraints)))
  = 2%nat.
Proof. vm_compute. reflexivity. Qed.

(** ** Play after stop *)

(** C5 (as the code has it). [play] does not read [isPlaybackStopped]:
    after [stop] the flag is set and stays set, and [play] still tells the
    engine to resume (when a Video element is mounted) and still sends a
    "start" report (when its closure holds a client and an item id). *)
Theorem play_after_stop_still_plays :
  forall (r0 r s : Player),
    let stopped := fst (stop r0 s) in
    isPlaybackStopped stopped = true
    /\ fst (play r stopped) = stopped
    /\ snd (play r stopped)
       = (if videoRef s then [VideoResume] else [])
         ++ (if canReport r then [Report (startReport r)] else [])
    /\ snd (play (setIsPlaybackStopped true r) stopped) = snd (play r s).
Proof.
  intros r0 r s stopped. repeat split.
  unfold play. cbn [snd]. rewrite reportPlaybackStart_canReport.
  reflexivity.
Qed.

(** C5 fails as stated: in a stopped session [play] resumes the engine and
    sends a "start" report. *)
Lemma play_after_stop_resumes_and_reports :
  let stopped := fst (step (None, StopPlayback)
                        (Sample.player Sample.noConstraints)) in
  isPlaybackStopped stopped = true
  /\ snd (step (None, Play) stopped)
     = [VideoResume; Report (startReport stopped)].
Proof. split; reflexivity. Qed.

(** ** Progress samples *)

Lemma onProgress_seeking (d : OnProgressData) (r s : Player) :
  isSeeking s = true -> onProgress d r s = (s, []).
Proof. intros H. unfold onProgress. rewrite H. reflexivity. Qed.

Lemma onProgress_keeps_isSeeking (d : OnProgressData) (r s : Player) :
  isSeeking (fst (onProgress d r s)) = isSeeking s.
Proof.
  unfold onProgress. destruct (isSeeking s) eqn:E; [exact E|].
  destruct (isPlaybackStopped r); [exact E|].
  destruct (negb _ || _); exact E.
Qed.

Lemma onProgress_report (d : OnProgressData) (r s : Player) :
  isSeeking s = false ->
  isPlaybackStopped r = false ->
  canReport r = true ->
  Qeq_bool (currentTime d) 0 = false ->
  snd (onProgress d r s)
  = [Report (progressReport r
               (Js.Math_round (secondsToTicks (currentTime d)))
               (negb (isPlaying r)))].
Proof.
  intros Hseek Hstop Hcan Hzero. unfold onProgress.
  rewrite Hseek, Hstop, Hzero.
  unfold canReport in Hcan. apply andb_true_iff in Hcan as [Hapi Hid].
  rewrite Hid. cbn [negb orb snd]. unfold callPlaystate. rewrite Hapi.
  reflexivity.
Qed.

(** C3 (as the code has it). While [isSeeking] is set the engine's progress
    callback sends nothing and changes nothing.  [seek] only forwards the
    position to the engine, when a Video element is mounted: it does not
    touch [isSeeking] or anything else of the component and sends no
    report; the progress callback never writes [isSeeking] either, nor does
    any other handler of the player (only the slider of the controls
    does).  With [isSeeking] clear, a sample with a
    non-zero time, run from a render that is not stopped and holds a client
    and an item id, sends exactly one progress report. *)
Theorem progress_gated_by_isSeeking :
  forall (d : OnProgressData) (r s : Player),
    (isSeeking s = true -> onProgress d r s = (s, []))
    /\ isSeeking (fst (onProgress d r s)) = isSeeking s
    /\ (forall q : Q,
          seek q r s = (s, if videoRef s then [VideoSeek q] else [])
          /\ reportsOf (snd (seek q r s)) = [])
    /\ (forall e : Event,
          isSliderEvent e = false ->
          isSeeking (fst (dispatch e r s)) = isSeeking s)
    /\ (isSeeking s = false ->
        isPlaybackStopped r = false ->
        canReport r = true ->
        Qeq_bool (currentTime d) 0 = false ->
        snd (onProgress d r s)
        = [Report (progressReport r
                     (Js.Math_round (secondsToTicks (currentTime d)))
                     (negb (isPlaying r)))]).
Proof.
  intros d r s. split; [|split; [|split; [|split]]].
  - apply onProgress_seeking.
  - apply onProgress_keeps_isSeeking.
  - intros q. split; [reflexivity|].
    unfold seek. cbn [snd]. apply reportsOf_onVideo. discriminate.
  - intros e He. destruct e; cbn [isSliderEvent] in He;
      try discriminate He; cbn [dispatch]; try reflexivity.
    + unfold togglePlay. destruct (isPlaying r); reflexivity.
    + apply onProgress_keeps_isSeeking.
    + unfold onLoad, play. destruct (firstTime s); reflexivity.
    + unfold onPlaybackStateChanged.
      destruct (isSeeking s) eqn:E; [exact E|exact E].
    + unfold discover, textTracksEffect. cbn [onTextTracks fst].
      destruct (chosenSubtitleTrack (setEmbededTextTracks tracks s));
        [|reflexivity].
      destruct (selectedTextTrack (setEmbededTextTracks tracks s));
        reflexivity.
  - apply onProgress_report.
Qed.

(** The last part of the theorem at a sample thirty seconds in. *)
Lemma progress_gated_by_isSeeking_witness :
  let d := {| currentTime := 30; playableDuration := 40 |} in
  let s := Sample.player Sample.noConstraints in
  isSeeking s = false /\ isPlaybackStopped s = false
  /\ canReport s = true /\ Qeq_bool (currentTime d) 0 = false
  /\ snd (onProgress d s s)
     = [Report (progressReport s
                  (Js.Math_round (secondsToTicks (currentTime d)))
                  (negb (isPlaying s)))].
Proof.
  do 4 (split; [reflexivity|]).
  apply (proj2 (proj2 (proj2 (proj2
    (progress_gated_by_isSeeking
       {| currentTime := 30; playableDuration := 40 |}
       (Sample.player Sample.noConstraints)
       (Sample.player Sample.noConstraints))))));
    reflexivity.
Defined.

(** C3 fails as stated: [seek] does not set [isSeeking]; with the slider
    held ([isSeeking] set), [seek] followed by the engine's next progress
    sample leaves [isSeeking] set and sends no report; and a pause toggled
    meanwhile does send a progress report. *)
Lemma seek_then_progress_stays_seeking :
  isSeeking (fst (step (None, Seek 30) (Sample.player Sample.noConstraints)))
  = false
  /\ isSeeking
       (fst (run [(None, Seek 30);
                  (None, EngineProgress
                           {| currentTime := 30; playableDuration := 40 |})]
                 (dragging (Sample.player Sample.noConstraints))))
     = true
  /\ reportsOf
       (snd (run [(None, Seek 30);
                  (None, EngineProgress
                           {| currentTime := 30; playableDuration := 40 |})]
                 (dragging (Sample.player Sample.noConstraints))))
     = []
  /\ countReports onPlaybackProgress
       (snd (step (None, TogglePlay 300000000)
                  (dragging (Sample.player Sample.noConstraints))))
     = 1%nat.
Proof. repeat split. Qed.

Lemma secondsToTicks_zero (q : Q) :
  Qeq_bool q 0 = true -> (secondsToTicks q == 0)%Q.
Proof.
  intros H. apply Qeq_bool_iff in H. unfold secondsToTicks.
  rewrite H. reflexivity.
Qed.

(** C4 (as the code has it). A progress sample with [currentTime] equal to
    0 sends no report.  It is not dropped, though: unless the slider is
    held or the render is stopped, the sample is recorded like any other,
    the local position is overwritten with its 0 ticks, and the buffered
    position and the buffering flag are set from its [playableDuration];
    nothing else of the component changes.  When the slider is held or the
    render is stopped the component is left as it is. *)
Theorem zero_sample_sends_nothing_but_is_recorded :
  forall (d : OnProgressData) (r s : Player),
    Qeq_bool (currentTime d) 0 = true ->
    snd (onProgress d r s) = []
    /\ (isSeeking s = false -> isPlaybackStopped r = false ->
        fst (onProgress d r s) = recorded d s
        /\ (progress (fst (onProgress d r s)) == 0)%Q
        /\ cacheProgress (fst (onProgress d r s))
           = secondsToTicks (playableDuration d)
        /\ isBuffering (fst (onProgress d r s))
           = Qeq_bool (playableDuration d) 0)
    /\ (isSeeking s = true \/ isPlaybackStopped r = true ->
        fst (onProgress d r s) = s).
Proof.
  intros d r s Hzero. split; [|split].
  - unfold onProgress. destruct (isSeeking s); [reflexivity|].
    destruct (isPlaybackStopped r); [reflexivity|].
    rewrite Hzero, orb_true_r. reflexivity.
  - intros Hseek Hstop.
    assert (E : fst (onProgress d r s) = recorded d s).
    { unfold onProgress. rewrite Hseek, Hstop, Hzero, orb_true_r.
      reflexivity. }
    rewrite E. split; [reflexivity|]. split; [|split; reflexivity].
    unfold recorded, setIsBuffering, setCacheProgress, setProgress.
    cbn [progress]. apply secondsToTicks_zero. exact Hzero.
  - intros [Hseek|Hstop]; unfold onProgress.
    + rewrite Hseek. reflexivity.
    + destruct (isSeeking s); [reflexivity|]. rewrite Hstop. reflexivity.
Qed.

(** The theorem at a zero sample arriving five seconds in. *)
Lemma zero_sample_witness :
  Qeq_bool (currentTime {| currentTime := 0; playableDuration := 12 |}) 0
  = true
  /\ snd (onProgress {| currentTime := 0; playableDuration := 12 |}
            (fiveSecondsIn (Sample.player Sample.noConstraints))
            (fiveSecondsIn (Sample.player Sample.noConstraints)))
     = []
  /\ (progress
        (fst (onProgress {| currentTime := 0; playableDuration := 12 |}
                (fiveSecondsIn (Sample.player Sample.noConstraints))
                (fiveSecondsIn (Sample.player Sample.noConstraints))))
      == 0)%Q
  /\ cacheProgress
       (fst (onProgress {| currentTime := 0; playableDuration := 12 |}
               (fiveSecondsIn (Sample.player Sample.noConstraints))
               (fiveSecondsIn (Sample.player Sample.noConstraints))))
     = secondsToTicks 12
  /\ isBuffering
       (fst (onProgress {| currentTime := 0; playableDuration := 12 |}
               (fiveSecondsIn (Sample.player Sample.noConstraints))
               (fiveSecondsIn (Sample.player Sample.noConstraints))))
     = false.
Proof.
  split; [reflexivity|].
  pose proof (zero_sample_sends_nothing_but_is_recorded
                {| currentTime := 0; playableDuration := 12 |}
                (fiveSecondsIn (Sample.player Sample.noConstraints))
                (fiveSecondsIn (Sample.player Sample.noConstraints))
                eq_refl) as (Hnone & Hrec & _).
  split; [exact Hnone|].
  destruct (Hrec eq_refl eq_refl) as (_ & Hpos & Hcache & Hbuf).
  split; [exact Hpos|]. split; [exact Hcache|exact Hbuf].
Defined.

(** C4 fails as stated: five seconds into playback, a sample with
    [currentTime] 0 sets the local position back to 0. *)
Lemma zero_sample_regresses_position :
  progress (fiveSecondsIn (Sample.player Sample.noConstraints)) = 50000000%Q
  /\ progress
       (fst (step (None, EngineProgress
                           {| currentTime := 0; playableDuration := 12 |})
                  (fiveSecondsIn (Sample.player Sample.noConstraints))))
     = 0%Q.
Proof. split; reflexivity. Qed.

(** ** Stream indices in the reports *)

Lemma forwardIndex_forwarded (n : option Js.number) :
  forwarded n (forwardIndex n).
Proof.
  intros z. unfold forwardIndex.
  destruct n as [[|y]|]; cbn [Js.truthy_number].
  - split; [discriminate|]. intros [H _]. discriminate.
  - destruct (Z.eqb_spec y 0) as [E|E]; cbn [negb].
    + split; [discriminate|]. intros [H Hz]. congruence.
    + split.
      * intros H. injection H as <-. split; [reflexivity|exact E].
      * intros [H _]. congruence.
  - split; [discriminate|]. intros [H _]. discriminate.
Qed.

(** Closes a goal [In p (if b then [x] else []) -> ..] by naming [x]. *)
Ltac one_report :=
  match goal with
  | |- In _ (if ?b then _ else _) -> _ =>
      destruct b; cbn [In]; intros H; [destruct H as [<-|[]]|destruct H]
  end.

(** Every report is a start report of the closure, a stopped report of
    the closure at the live position, or a progress report of the
    closure. *)
Lemma reportsOf_dispatch (e : Event) (r s : Player) (p : Playstate.t) :
  In p (reportsOf (snd (dispatch e r s))) ->
  p = startReport r
  \/ p = stoppedReport r (Js.Math_floor (progress s))
  \/ exists (position : Z) (paused : bool),
       p = progressReport r position paused.
Proof.
  destruct e; cbn [dispatch];
    rewrite ?reportsOf_play, ?reportsOf_stop, ?reportsOf_pause,
      ?reportsOf_seek, ?reportsOf_togglePlay, ?reportsOf_discover;
    try (intros []; fail);
    try (one_report; eauto; fail).
  - (* EngineProgress *)
    destruct (reportsOf_onProgress data r s) as [-> | ->];
      [intros []|]. intros [<-|[]]. eauto.
  - (* EngineLoad *)
    unfold onLoad. destruct (firstTime s); [|intros []].
    assert (E : snd (let '(s1, t) := play r s in (setFirstTime false s1, t))
                = snd (play r s)) by reflexivity.
    rewrite E, reportsOf_play. one_report. eauto.
  - (* EnginePlaybackState *)
    unfold onPlaybackStateChanged. destruct (isSeeking s); intros [].
Qed.

(** C10 (as the code has it). In every report a handler sends, the
    "stopped" report carries no stream index, and a "start" or "progress"
    report carries the launch-requested audio and subtitle indices exactly
    when they are numbers other than 0: an index 0, a parameter that is not
    a number and a missing parameter are sent as absent, and every non-zero
    index is forwarded, a negative one such as -1 included. *)
Theorem nonzero_indices_are_forwarded :
  forall (e : Event) (r s : Player) (p : Playstate.t),
    In p (reportsOf (snd (dispatch e r s))) ->
    (Playstate.kind p = onPlaybackStopped
     /\ Playstate.audioStreamIndex p = None
     /\ Playstate.subtitleStreamIndex p = None)
    \/ (Playstate.kind p <> onPlaybackStopped
        /\ forwarded (audioIndex r) (Playstate.audioStreamIndex p)
        /\ forwarded (subtitleIndex r) (Playstate.subtitleStreamIndex p)).
Proof.
  intros e r s p Hin.
  destruct (reportsOf_dispatch e r s p Hin) as [->|[->|(pos & paused & ->)]].
  - right. cbn. split; [discriminate|].
    split; apply forwardIndex_forwarded.
  - left. repeat split.
  - right. cbn. split; [discriminate|].
    split; apply forwardIndex_forwarded.
Qed.

(** The theorem at the start report of a launch with subtitle index 4. *)
Lemma nonzero_indices_witness :
  In (startReport (Sample.player (Sample.withSubtitle "4")))
     (reportsOf (snd (dispatch Play
                        (Sample.player (Sample.withSubtitle "4"))
                        (Sample.player (Sample.withSubtitle "4")))))
  /\ forwarded
       (subtitleIndex (Sample.player (Sample.withSubtitle "4")))
       (Playstate.subtitleStreamIndex
          (startReport (Sample.player (Sample.withSubtitle "4")))).
Proof.
  assert (Hin : In (startReport (Sample.player (Sample.withSubtitle "4")))
                  (reportsOf (snd (dispatch Play
                     (Sample.player (Sample.withSubtitle "4"))
                     (Sample.player (Sample.withSubtitle "4"))))))
    by (left; reflexivity).
  split; [exact Hin|].
  destruct (nonzero_indices_are_forwarded Play _ _ _ Hin)
    as [(Hk & _)|(_ & _ & Hsub)]; [discriminate Hk|exact Hsub].
Defined.

(** C10 fails as stated: launched with [subtitleIndex=-1] and
    [audioIndex=1], the start report forwards the subtitle index -1, which
    is not strictly positive; launched with index 0 it is sent as absent. *)
Lemma negative_index_is_forwarded :
  map Playstate.subtitleStreamIndex
      (reportsOf (snd (step (None, Play)
                         (Sample.player (Sample.withSubtitle "-1")))))
  = [Some (-1)]
  /\ map Playstate.subtitleStreamIndex
         (reportsOf (snd (step (None, Play)
                            (Sample.player (Sample.withSubtitle "0")))))
     = [None].
Proof. split; reflexivity. Qed.

(** ** Start position *)

Lemma Math_round_ticks_to_ms (t : Z) :
  Js.Math_round (inject_Z t / 10000) = (t + 5000) / 10000.
Proof.
  unfold Js.Math_round, Qfloor, Qdiv, Qinv, Qmult, Qplus, inject_Z.
  cbn [Qnum Qden]. change (Z.pos (1 * 10000 * 2)) with (2 * 10000).
  replace (t * 1 * 2 + 1 * Z.pos (1 * 10000)) with (2 * (t + 5000)) by lia.
  apply Z.div_mul_cancel_l; lia.
Qed.

(** C6 (as the code has it). For an item whose [PlaybackPositionTicks] is
    1200000000 (120 seconds), with a client and a stream url, the start
    position handed to the engine is 120000 milliseconds: the ticks divided
    by 10000, rounded.  The launch parameters play no part.  The older
    [VideoPlayer] component computes the same value. *)
Theorem start_position_is_ticks_over_10000 :
  forall (r : Player) (it : BaseItemDto) (st : StreamData),
    item r = Some it ->
    playbackPositionTicks it = Some 1200000000 ->
    api r = true ->
    stream r = Some st ->
    url st <> EmptyString ->
    videoSource r
    = Some {| uri := url st; isNetwork := true; startPosition := 120000 |}
    /\ VideoPlayer.startPosition (item r) = 120000
    /\ 120000 = 1200000000 / 10000.
Proof.
  intros r it st Hitem Hticks Hapi Hstream Hurl.
  unfold videoSource, useVideoSource, VideoPlayer.startPosition.
  rewrite Hitem, Hstream, Hapi. cbn [option_map option_bind].
  rewrite Hticks. cbn [negb orb Z.eqb].
  destruct (url st) eqn:E; [contradiction|].
  cbn [Js.truthy_string negb]. rewrite Math_round_ticks_to_ms.
  repeat split.
Qed.

(** The theorem at the sample session. *)
Lemma start_position_witness :
  videoSource (Sample.player Sample.noConstraints)
  = Some {| uri := url Sample.hls; isNetwork := true;
            startPosition := 120000 |}
  /\ VideoPlayer.startPosition (item (Sample.player Sample.noConstraints))
     = 120000
  /\ 120000 = 1200000000 / 10000.
Proof.
  apply (start_position_is_ticks_over_10000
           (Sample.player Sample.noConstraints) Sample.movie Sample.hls);
    try reflexivity.
  discriminate.
Defined.

(** C6 fails as stated: the start position for 1200000000 ticks is 120000,
    not 12000. *)
Lemma start_position_is_not_12000 :
  option_map startPosition (videoSource (Sample.player Sample.noConstraints))
  = Some 120000
  /\ (120000 =? 12000) = false
  /\ playbackPositionTicks Sample.movie = Some 1200000000
  /\ params (Sample.player Sample.noConstraints) = Sample.noConstraints.
Proof. repeat split. Qed.

(** ** Download *)

(** C9 (as the code has it). With playback info at hand, [downloadFile]
    either rejects with the not-downloadable error and does nothing else,
    exactly when the first media source does not support direct play or the
    item is not flagged as downloadable, or it starts the download of the
    item.  Without playback info it returns at once: it neither rejects nor
    starts a download.  In no case does it issue a call on the engine or on
    the play-state service. *)
Theorem download_rejects_or_starts :
  forall (it : BaseItemDto),
    DownloadItem.downloadFile it None = (DownloadItem.Fulfilled, [])
    /\ forall info : PlaybackInfoResponse,
         (DownloadItem.downloadFile it (Some info)
          = (DownloadItem.Rejected DownloadItem.notDownloadable, [])
          /\ (~ supportsDirectPlay info \/ ~ downloadable it))
         \/ (DownloadItem.downloadFile it (Some info)
             = (DownloadItem.Fulfilled, [DownloadMedia it])
             /\ supportsDirectPlay info /\ downloadable it).
Proof.
  intros it. split; [reflexivity|]. intros info.
  unfold DownloadItem.downloadFile, supportsDirectPlay, downloadable.
  destruct (DownloadItem.firstSource info) as [src|] eqn:Esrc;
    cbn [option_bind].
  - destruct (SupportsDirectPlay src) as [[|]|] eqn:Edp;
      cbn [Js.truthy_bool andb].
    + destruct (CanDownload it) as [[|]|] eqn:Ecd; cbn [Js.truthy_bool].
      * right. split; [reflexivity|]. split; [|reflexivity].
        exists src. split; [reflexivity|exact Edp].
      * left. split; [reflexivity|]. right. discriminate.
      * left. split; [reflexivity|]. right. discriminate.
    + left. split; [reflexivity|]. left. intros (x & Hx & Hd).
      injection Hx as <-. congruence.
    + left. split; [reflexivity|]. left. intros (x & Hx & Hd).
      injection Hx as <-. congruence.
  - left. split; [reflexivity|]. left. intros (x & Hx & _). discriminate.
Qed.

(** C9 fails as stated: while the playback info is missing, the download
    of an item flagged as not downloadable is not rejected, and the download
    of a downloadable item is not started. *)
Lemma download_without_playback_info_does_nothing :
  CanDownload Sample.lockedMovie = Some false
  /\ DownloadItem.downloadFile Sample.lockedMovie None
     = (DownloadItem.Fulfilled, [])
  /\ CanDownload Sample.movie = Some true
  /\ DownloadItem.downloadFile Sample.movie None
     = (DownloadItem.Fulfilled, []).
Proof. repeat split. Qed.

(** ** The subtitle catalogue *)

Lemma strict_eq_string_true (a b : Js.nullable string) :
  Js.strict_eq_string a b = true <-> a = b.
Proof.
  destruct a as [| |x], b as [| |y]; cbn; split;
    try reflexivity; try discriminate.
  - intros H. apply String.eqb_eq in H. congruence.
  - intros H. injection H as ->. apply String.eqb_refl.
Qed.

Lemma hasTitle_true (t : Js.nullable string) (o : StreamObj) :
  hasTitle t o = true <-> titleOf o = t.
Proof. apply strict_eq_string_true. Qed.

Lemma hasTitle_own (o : StreamObj) : hasTitle (titleOf o) o = true.
Proof. apply hasTitle_true. reflexivity. Qed.

Section ArrayLemmas.

Context {A : Type}.

Lemma set_insert_spec (eqb : A -> A -> bool) (seen : list A) (x : A) :
  Js.set_insert eqb seen x
  = if existsb (fun y => eqb y x) seen then seen else seen ++ [x].
Proof.
  induction seen as [|y seen IH]; cbn; [reflexivity|].
  destruct (eqb y x); cbn; [reflexivity|].
  rewrite IH. destruct (existsb _ seen); reflexivity.
Qed.

Lemma jsfind_app (f : A -> bool) (a b : list A) :
  Js.find f (a ++ b)
  = match Js.find f a with
    | Some x => Some x
    | None => Js.find f b
    end.
Proof.
  induction a as [|x a IH]; cbn; [reflexivity|].
  destruct (f x); [reflexivity|exact IH].
Qed.

Lemma jsfind_none (f : A -> bool) (a : list A) :
  existsb f a = false -> Js.find f a = None.
Proof.
  induction a as [|x a IH]; cbn; [reflexivity|].
  destruct (f x); cbn; [discriminate|exact IH].
Qed.

Lemma jsfind_some (f : A -> bool) (a : list A) (x : A) :
  Js.find f a = Some x -> In x a /\ f x = true.
Proof.
  induction a as [|y a IH]; cbn; [discriminate|].
  destruct (f y) eqn:E.
  - intros H. injection H as <-. split; [left; reflexivity|exact E].
  - intros H. destruct (IH H) as [H1 H2]. split; [right|]; assumption.
Qed.

End ArrayLemmas.

(** The titles the [Set] collects are those of the first occurrences. *)
Lemma fromSet_firstOccurrences (rest earlier : list StreamObj)
    (acc : list (Js.nullable string)) :
  (forall k, existsb (fun y => Js.strict_eq_string y k) acc
             = existsb (hasTitle k) earlier) ->
  fold_left (Js.set_insert Js.strict_eq_string) (map titleOf rest) acc
  = acc ++ map titleOf (firstOccurrences earlier rest).
Proof.
  revert earlier acc.
  induction rest as [|o rest IH]; intros earlier acc Hinv; cbn [map fold_left
    firstOccurrences].
  - rewrite app_nil_r. reflexivity.
  - rewrite set_insert_spec, (Hinv (titleOf o)).
    fold (titleOf o).
    destruct (existsb (hasTitle (titleOf o)) earlier) eqn:Eseen.
    + rewrite (IH (earlier ++ [o]) acc); [reflexivity|].
      intros k. rewrite existsb_app, Hinv. cbn [existsb].
      rewrite orb_false_r.
      destruct (hasTitle k o) eqn:Ek; [|rewrite orb_false_r; reflexivity].
      apply hasTitle_true in Ek. subst k. rewrite Eseen. reflexivity.
    + rewrite (IH (earlier ++ [o]) (acc ++ [titleOf o])).
      * rewrite <- app_assoc. reflexivity.
      * intros k. rewrite !existsb_app, Hinv. reflexivity.
Qed.

Lemma firstOccurrences_In (rest earlier : list StreamObj) (o : StreamObj) :
  In o (firstOccurrences earlier rest) ->
  In o rest /\ existsb (hasTitle (titleOf o)) earlier = false.
Proof.
  revert earlier. induction rest as [|x rest IH]; intros earlier;
    cbn [firstOccurrences]; [intros []|].
  intros H. apply in_app_or in H. destruct H as [H|H].
  - fold (titleOf x) in H.
    destruct (existsb (hasTitle (titleOf x)) earlier) eqn:E; [destruct H|].
    destruct H as [<-|[]]. split; [left; reflexivity|exact E].
  - destruct (IH _ H) as [H1 H2]. split; [right; exact H1|].
    rewrite existsb_app in H2. apply orb_false_iff in H2. apply H2.
Qed.

(** Each entry is the first stream with its title. *)
Lemma firstOccurrences_find (rest earlier : list StreamObj) (o : StreamObj) :
  In o (firstOccurrences earlier rest) ->
  Js.find (hasTitle (titleOf o)) (earlier ++ rest) = Some o.
Proof.
  revert earlier. induction rest as [|x rest IH]; intros earlier;
    cbn [firstOccurrences]; [intros []|].
  intros H. apply in_app_or in H. destruct H as [H|H].
  - fold (titleOf x) in H.
    destruct (existsb (hasTitle (titleOf x)) earlier) eqn:E; [destruct H|].
    destruct H as [<-|[]].
    rewrite jsfind_app, (jsfind_none _ _ E). cbn [Js.find].
    rewrite hasTitle_own. reflexivity.
  - specialize (IH _ H). rewrite <- app_assoc in IH. exact IH.
Qed.

Lemma firstOccurrences_NoDup (rest earlier : list StreamObj) :
  NoDup (map titleOf (firstOccurrences earlier rest)).
Proof.
  revert earlier. induction rest as [|x rest IH]; intros earlier;
    cbn [firstOccurrences]; [constructor|].
  fold (titleOf x).
  destruct (existsb (hasTitle (titleOf x)) earlier); cbn [app map];
    [apply IH|].
  constructor; [|apply IH].
  intros Hin. apply in_map_iff in Hin. destruct Hin as (o & Ht & Ho).
  apply firstOccurrences_In in Ho. destruct Ho as [_ Ho].
  rewrite existsb_app in Ho. apply orb_false_iff in Ho.
  destruct Ho as [_ Ho]. cbn [existsb] in Ho. rewrite orb_false_r in Ho.
  rewrite Ht in Ho. rewrite hasTitle_own in Ho. discriminate.
Qed.

(** Every title of the input is represented. *)
Lemma firstOccurrences_covers (rest earlier : list StreamObj) (o : StreamObj) :
  In o rest ->
  existsb (hasTitle (titleOf o)) earlier = true
  \/ exists o', In o' (firstOccurrences earlier rest) /\ titleOf o' = titleOf o.
Proof.
  revert earlier. induction rest as [|x rest IH]; intros earlier;
    [intros []|].
  cbn [firstOccurrences]; fold (titleOf x). intros [->|Hin].
  - destruct (existsb (hasTitle (titleOf o)) earlier) eqn:E;
      [left; reflexivity|].
    right. exists o. split; [left; reflexivity|reflexivity].
  - destruct (IH (earlier ++ [x]) Hin) as [H|(o' & H1 & H2)].
    + rewrite existsb_app in H. cbn [existsb] in H.
      rewrite orb_false_r in H. apply orb_true_iff in H.
      destruct H as [H|H]; [left; exact H|].
      apply hasTitle_true in H.
      destruct (existsb (hasTitle (titleOf x)) earlier) eqn:E.
      * left. rewrite <- H. exact E.
      * right. exists x. split; [left; reflexivity|exact H].
    + right. exists o'. split; [|exact H2].
      apply in_or_app. right. exact H1.
Qed.

(** Source order: positions stay increasing. *)
Lemma firstOccurrences_sorted (rest earlier : list StreamObj) :
  StronglySorted lt (map fst rest) ->
  StronglySorted lt (map fst (firstOccurrences earlier rest)).
Proof.
  revert earlier. induction rest as [|x rest IH]; intros earlier Hs;
    cbn [firstOccurrences]; [constructor|].
  cbn [map] in Hs. apply StronglySorted_inv in Hs. destruct Hs as [Hs Hx].
  destruct (existsb _ earlier); cbn [app map]; [apply IH; exact Hs|].
  constructor; [apply IH; exact Hs|].
  rewrite Forall_forall in *. intros n Hn.
  apply in_map_iff in Hn. destruct Hn as (o & <- & Ho).
  apply firstOccurrences_In in Ho. apply Hx.
  apply in_map. apply Ho.
Qed.

Lemma filter_sorted (f : StreamObj -> bool) (l : list StreamObj) :
  StronglySorted lt (map fst l) ->
  StronglySorted lt (map fst (filter f l)).
Proof.
  induction l as [|x l IH]; intros Hs; cbn [filter]; [constructor|].
  cbn [map] in Hs. apply StronglySorted_inv in Hs. destruct Hs as [Hs Hx].
  destruct (f x); cbn [map]; [|apply IH; exact Hs].
  constructor; [apply IH; exact Hs|].
  rewrite Forall_forall in *. intros n Hn.
  apply in_map_iff in Hn. destruct Hn as (o & <- & Ho).
  apply filter_In in Ho. apply Hx. apply in_map. apply Ho.
Qed.

Lemma seq_sorted (len start : nat) : StronglySorted lt (seq start len).
Proof.
  revert start. induction len as [|len IH]; intros start; cbn [seq];
    constructor; [apply IH|].
  rewrite Forall_forall. intros n Hn. apply in_seq in Hn. lia.
Qed.

Lemma objects_positions (l : list MediaStream) :
  map fst (objects l) = seq 0 (List.length l).
Proof.
  unfold objects. generalize 0%nat.
  induction l as [|x l IH]; intros n; cbn; [reflexivity|].
  rewrite IH. reflexivity.
Qed.

Lemma mediaStreamsOf_sorted (r : Player) :
  StronglySorted lt (map fst (mediaStreamsOf r)).
Proof.
  unfold mediaStreamsOf. destruct (stream r) as [st|]; [|constructor].
  destruct (MediaStreams (mediaSource st)) as [l|]; [|constructor].
  rewrite objects_positions. apply seq_sorted.
Qed.

Lemma uniqueOf_firstOccurrences (subs : list StreamObj) :
  uniqueOf subs = map Some (firstOccurrences [] subs).
Proof.
  change (uniqueOf subs)
    with (map (fun t => Js.find (hasTitle t) subs)
              (fold_left (Js.set_insert Js.strict_eq_string)
                         (map titleOf subs) [])).
  rewrite (fromSet_firstOccurrences subs [] []) by reflexivity.
  cbn [app]. rewrite map_map. apply map_ext_in.
  intros o Ho. apply (firstOccurrences_find subs [] o Ho).
Qed.

Lemma isTextSub_true (o : StreamObj) :
  isTextSub o = true <->
  Type_ (snd o) = Some Subtitle /\ IsTextSubtitleStream (snd o) = Some true.
Proof.
  unfold isTextSub.
  destruct (Type_ (snd o)) as [[]|];
    destruct (IsTextSubtitleStream (snd o)) as [[]|]; cbn;
    split; try discriminate; try (intros [? ?]; discriminate);
    repeat split.
Qed.

(** C7. The catalogue the player computes is the list of text-based
    subtitle streams (type Subtitle, text flag set) in which, of several
    streams with one display title, only the first is kept: its entries are
    such streams, no two entries share a title, every text subtitle's title
    has its entry, each entry is the first text subtitle with its title, and
    the entries stand in source order.  The titles "English", "English",
    "Director's Commentary" give two entries: the first "English" and
    "Director's Commentary". *)
Theorem catalogue_is_first_occurrences_by_title :
  forall r : Player,
    uniqueTextSubs r = map Some (catalogueSpec (mediaStreamsOf r))
    /\ (forall o, In o (catalogueSpec (mediaStreamsOf r)) ->
          In o (mediaStreamsOf r)
          /\ Type_ (snd o) = Some Subtitle
          /\ IsTextSubtitleStream (snd o) = Some true
          /\ Js.find (hasTitle (titleOf o)) (textSubs r) = Some o)
    /\ NoDup (map titleOf (catalogueSpec (mediaStreamsOf r)))
    /\ (forall o, In o (mediaStreamsOf r) ->
          Type_ (snd o) = Some Subtitle ->
          IsTextSubtitleStream (snd o) = Some true ->
          exists o', In o' (catalogueSpec (mediaStreamsOf r))
                     /\ titleOf o' = titleOf o)
    /\ StronglySorted lt (map fst (catalogueSpec (mediaStreamsOf r)))
    /\ uniqueTextSubs (Sample.player Sample.noConstraints)
       = [Some (2%nat, Sample.sub true "English" 2);
          Some (4%nat, Sample.sub true "Director's Commentary" 4)].
Proof.
  intros r. unfold uniqueTextSubs, catalogueSpec, textSubs.
  split; [apply uniqueOf_firstOccurrences|].
  split; [|split; [|split; [|split]]].
  - intros o Ho.
    pose proof (firstOccurrences_find _ _ _ Ho) as Hfind.
    apply firstOccurrences_In in Ho. destruct Ho as [Ho _].
    apply filter_In in Ho. destruct Ho as [Hin Htext].
    apply isTextSub_true in Htext. destruct Htext as [Hty Htxt].
    repeat split; assumption.
  - apply firstOccurrences_NoDup.
  - intros o Hin Hty Htxt.
    assert (Ho : In o (filter isTextSub (mediaStreamsOf r))).
    { apply filter_In. split; [exact Hin|].
      apply isTextSub_true. split; assumption. }
    destruct (firstOccurrences_covers _ [] o Ho) as [H|H];
      [discriminate H|exact H].
  - apply firstOccurrences_sorted, filter_sorted, mediaStreamsOf_sorted.
  - reflexivity.
Qed.

(** ** Initial subtitle selection *)

Lemma sorted_positions_unique (l : list StreamObj) (a b : StreamObj) :
  StronglySorted lt (map fst l) ->
  In a l -> In b l -> fst a = fst b -> a = b.
Proof.
  induction l as [|x l IH]; intros Hs Ha Hb Hfst; [destruct Ha|].
  cbn [map] in Hs. apply StronglySorted_inv in Hs. destruct Hs as [Hs Hx].
  rewrite Forall_forall in Hx.
  destruct Ha as [->|Ha], Hb as [->|Hb].
  - reflexivity.
  - specialize (Hx (fst b) (in_map fst l b Hb)). lia.
  - specialize (Hx (fst a) (in_map fst l a Ha)). lia.
  - apply IH; assumption.
Qed.

Lemma indexOf_from_position (l : list StreamObj) (c : StreamObj) (i : Z) :
  (forall o, In o l -> fst o = fst c -> o = c) ->
  In c l ->
  exists n : nat,
    Js.indexOf_from same_object (map Some l) (Some c) i = i + Z.of_nat n
    /\ nth_error l n = Some c.
Proof.
  revert i. induction l as [|x l IH]; intros i Huniq Hin; [destruct Hin|].
  cbn [map Js.indexOf_from same_object].
  destruct (Nat.eqb_spec (fst x) (fst c)) as [E|E].
  - exists 0%nat. split; [lia|].
    rewrite (Huniq x (or_introl eq_refl) E). reflexivity.
  - destruct Hin as [->|Hin]; [contradiction E; reflexivity|].
    destruct (IH (i + 1)) as (n & Hn & Hnth).
    + intros o Ho. apply Huniq. right. exact Ho.
    + exact Hin.
    + exists (S n). split; [rewrite Hn; lia|exact Hnth].
Qed.

Lemma textSubs_sorted (r : Player) :
  StronglySorted lt (map fst (textSubs r)).
Proof. apply filter_sorted, mediaStreamsOf_sorted. Qed.

(** A stream that is the first text subtitle with its title stands in the
    catalogue. *)
Lemma first_with_title_in_catalogue (r : Player) (c : StreamObj) :
  Js.find (hasTitle (titleOf c)) (textSubs r) = Some c ->
  In c (firstOccurrences [] (textSubs r)).
Proof.
  intros Hfind. destruct (jsfind_some _ _ _ Hfind) as [Hin _].
  destruct (firstOccurrences_covers (textSubs r) [] c Hin)
    as [H|(o & Ho & Ht)]; [discriminate H|].
  pose proof (firstOccurrences_find _ _ _ Ho) as Hfo.
  cbn [app] in Hfo. rewrite Ht, Hfind in Hfo. injection Hfo as <-.
  exact Ho.
Qed.

Lemma catalogue_position (r : Player) (c : StreamObj) :
  Js.find (hasTitle (titleOf c)) (textSubs r) = Some c ->
  exists n : nat,
    Js.indexOf same_object (uniqueTextSubs r) (Some c) = Z.of_nat n
    /\ nth_error (uniqueTextSubs r) n = Some (Some c).
Proof.
  intros Hfind. pose proof (first_with_title_in_catalogue r c Hfind) as Hin.
  unfold uniqueTextSubs. rewrite uniqueOf_firstOccurrences.
  destruct (indexOf_from_position (firstOccurrences [] (textSubs r)) c 0)
    as (n & Hn & Hnth).
  - intros o Ho Hfst.
    apply (sorted_positions_unique (firstOccurrences [] (textSubs r)));
      try assumption.
    apply firstOccurrences_sorted, textSubs_sorted.
  - exact Hin.
  - exists n. split; [exact Hn|].
    rewrite nth_error_map, Hnth. reflexivity.
Qed.

Lemma discover_selected (tracks : list TextTrack) (s : Player)
    (t : SelectedTrack) :
  selectedTextTrack s = Some t ->
  discover tracks s = (setEmbededTextTracks tracks s, []).
Proof.
  intros H. unfold discover, textTracksEffect. cbn [onTextTracks fst].
  change (selectedTextTrack (setEmbededTextTracks tracks s))
    with (selectedTextTrack s).
  rewrite H.
  destruct (chosenSubtitleTrack (setEmbededTextTracks tracks s));
    reflexivity.
Qed.

Lemma discoverAll_selected (events : list (list TextTrack)) (s : Player)
    (t : SelectedTrack) :
  selectedTextTrack s = Some t ->
  snd (discoverAll events s) = []
  /\ selectedTextTrack (fst (discoverAll events s)) = Some t.
Proof.
  revert s. induction events as [|tracks events IH]; intros s H;
    cbn [discoverAll]; [split; [reflexivity|exact H]|].
  rewrite (discover_selected tracks s t H).
  destruct (IH (setEmbededTextTracks tracks s) H) as [H1 H2].
  destruct (discoverAll events (setEmbededTextTracks tracks s)) as [s2 t2].
  cbn [fst snd] in *. subst t2. split; [reflexivity|exact H2].
Qed.








(** Not covered by the theorem above: a requested stream whose title repeats
    an earlier one is not in the catalogue, and [indexOf] answers -1. *)
Example repeated_title_selects_minus_one :
  chosenSubtitleTrack (Sample.player (Sample.withSubtitle "3"))
  = Some (3%nat, Sample.sub true "English" 3)
  /\ snd (discover [] (Sample.player (Sample.withSubtitle "3")))
     = [SetSelectedTextTrack {| type := INDEX; value := -1 |}].
Proof. split; reflexivity. Qed.

(** * Further properties of the components *)

(** ** Substrings and the play method *)

Lemma prefix_append (a b : string) :
  String.prefix a b = true <-> exists post, b = String.append a post.
Proof.
  revert b. induction a as [|c a IH]; intros b; cbn [String.prefix].
  - split; [intros _; exists b; reflexivity|].
    intros _. destruct b; reflexivity.
  - destruct b as [|d b]; cbn [String.prefix].
    + split; [discriminate|]. intros [post H]. discriminate H.
    + destruct (ascii_dec c d) as [->|Hcd].
      * rewrite IH. split; intros [post H]; exists post.
        -- cbn. rewrite H. reflexivity.
        -- cbn in H. injection H as H. exact H.
      * split; [discriminate|]. intros [post H]. cbn in H.
        injection H as H _. congruence.
Qed.

(** [hay.includes(needle)] holds exactly when [needle] occurs in [hay]. *)
Lemma includes_occurs (needle hay : string) :
  Js.includes needle hay = true
  <-> exists pre post,
        hay = String.append pre (String.append needle post).
Proof.
  induction hay as [|c hay IH]; cbn [Js.includes].
  - rewrite orb_false_r, prefix_append. split.
    + intros [post H]. exists EmptyString, post. exact H.
    + intros (pre & post & H). destruct pre; [|discriminate H].
      exists post. exact H.
  - rewrite orb_true_iff, prefix_append, IH. split.
    + intros [[post H]|(pre & post & H)].
      * exists EmptyString, post. exact H.
      * exists (String c pre), post. cbn. rewrite H. reflexivity.
    + intros (pre & post & H). destruct pre as [|d pre].
      * left. exists post. exact H.
      * right. cbn in H. injection H as _ H. exists pre, post. exact H.
Qed.

(** X1. Every start and progress report names the play method Transcode
    exactly when the stream url of the render it was sent from contains
    "m3u8" somewhere, and DirectStream otherwise, also when no stream is
    loaded. *)
Theorem play_method_follows_url :
  forall (e : Event) (r s : Player) (p : Playstate.t),
    In p (reportsOf (snd (dispatch e r s))) ->
    Playstate.kind p <> onPlaybackStopped ->
    (Playstate.playMethod p = Some Transcode
     \/ Playstate.playMethod p = Some DirectStream)
    /\ (Playstate.playMethod p = Some Transcode
        <-> exists st pre post,
              stream r = Some st
              /\ url st = String.append pre (String.append "m3u8" post)).
Proof.
  intros e r s p Hin Hkind.
  assert (Hm : Playstate.playMethod p = Some (playMethodOf r)).
  { destruct (reportsOf_dispatch e r s p Hin)
      as [->|[->|(pos & paused & ->)]];
      [reflexivity|contradiction Hkind; reflexivity|reflexivity]. }
  rewrite Hm. unfold playMethodOf.
  destruct (stream r) as [st|].
  - destruct (Js.includes "m3u8" (url st)) eqn:E.
    + split; [left; reflexivity|]. split; [|reflexivity].
      intros _. apply includes_occurs in E.
      destruct E as (pre & post & E). exists st, pre, post.
      split; [reflexivity|exact E].
    + split; [right; reflexivity|]. split; [discriminate|].
      intros (st' & pre & post & Hst & Hurl). injection Hst as <-.
      assert (Js.includes "m3u8" (url st) = true)
        by (apply includes_occurs; exists pre, post; exact Hurl).
      congruence.
  - split; [right; reflexivity|]. split; [discriminate|].
    intros (st' & _ & _ & Hst & _). discriminate Hst.
Qed.

(** X1 at the start report of the sample session, whose url ends in
    master.m3u8. *)
Lemma play_method_follows_url_witness :
  Playstate.playMethod (startReport (Sample.player Sample.noConstraints))
  = Some Transcode.
Proof.
  assert (Hin : In (startReport (Sample.player Sample.noConstraints))
                  (reportsOf (snd (dispatch Play
                     (Sample.player Sample.noConstraints)
                     (Sample.player Sample.noConstraints)))))
    by (left; reflexivity).
  destruct (play_method_follows_url Play _ _ _ Hin) as [_ [_ H]];
    [discriminate|].
  apply H. exists Sample.hls, "http://server/videos/item-1/master."%string,
    EmptyString. split; reflexivity.
Defined.

(** ** What the handlers leave alone *)

(** Unfolds the handler an event runs and splits on its tests. *)
Ltac handler_cases :=
  unfold onLoad;
  unfold play, pause, seek, togglePlay, stop, onProgress,
    onPlaybackStateChanged, onBuffer, setSubtitleTrack, discover,
    textTracksEffect, onTextTracks, reportPlaybackStart,
    reportPlaybackStopped, callPlaystate, onVideo;
  cbn [fst snd];
  repeat match goal with
         | |- context [if ?b then _ else _] => destruct b eqn:?
         | |- context [match chosenSubtitleTrack ?x with _ => _ end] =>
             destruct (chosenSubtitleTrack x) eqn:?
         | |- context [match selectedTextTrack ?x with _ => _ end] =>
             destruct (selectedTextTrack x) eqn:?
         end;
  cbn [fst snd].

Lemma dispatch_isPlaying (e : Event) (r s : Player) :
  isPlaying (fst (dispatch e r s))
  = match e with
    | EnginePlaybackState b => if isSeeking s then isPlaying s else b
    | _ => isPlaying s
    end.
Proof.
  destruct e; cbn [dispatch]; handler_cases;
    first [reflexivity | assumption | congruence].
Qed.

Lemma dispatch_transport (e : Event) (r s : Player) :
  isTransportEvent e = true -> fst (dispatch e r s) = s.
Proof.
  destruct e; cbn [isTransportEvent dispatch]; try discriminate;
    intros _; handler_cases; reflexivity.
Qed.

Lemma dispatch_videoRef (e : Event) (r s : Player) :
  videoRef (fst (dispatch e r s)) = videoRef s.
Proof.
  destruct e; cbn [dispatch]; handler_cases;
    first [reflexivity | assumption].
Qed.

(** X2. The player never sets [isPlaying] on its own: play, pause, seek
    and the pause toggle, from the controls, the remote channel or the
    screen's focus, change nothing of the component, and in a session
    without a playback-state event of the engine [isPlaying] keeps its
    value whatever is called.  The engine's playback-state event sets it,
    unless the slider is held ([isSeeking]), in which case it is ignored. *)
Theorem isPlaying_only_follows_the_engine :
  forall (steps : list Step) (s : Player),
    forallb (fun st => negb (isPlaybackStateEvent (snd st))) steps = true ->
    isPlaying (fst (run steps s)) = isPlaying s
    /\ (forall (e : Event) (r : Player),
          isTransportEvent e = true -> fst (dispatch e r s) = s)
    /\ (forall (b : bool) (r : Player),
          isPlaying (fst (onPlaybackStateChanged b r s))
          = if isSeeking s then isPlaying s else b).
Proof.
  intros steps s Hno.
  split; [|split; [intros e r; apply dispatch_transport|]];
    [|intros b r; apply (dispatch_isPlaying (EnginePlaybackState b) r s)].
  revert s. induction steps as [|st steps IH]; intros s; [reflexivity|].
  cbn [forallb] in Hno. apply andb_true_iff in Hno. destruct Hno as [H1 H2].
  cbn [run].
  pose proof (dispatch_isPlaying (snd st) (closureOf st s) s) as Hp.
  fold (step st s) in Hp.
  destruct (step st s) as [s1 t1]. cbn [fst] in Hp.
  specialize (IH H2 s1). destruct (run steps s1) as [s2 t2].
  cbn [fst] in *. rewrite IH, Hp.
  destruct (snd st); try reflexivity. discriminate H1.
Qed.

(** X2 at a session of play, pause toggle, pause and a progress sample. *)
Lemma isPlaying_only_follows_the_engine_witness :
  isPlaying
    (fst (run (fresh [Play; TogglePlay 0; Pause;
                      EngineProgress
                        {| currentTime := 3; playableDuration := 9 |}])
              (Sample.player Sample.noConstraints)))
  = false.
Proof.
  apply (proj1 (isPlaying_only_follows_the_engine
                  (fresh [Play; TogglePlay 0; Pause;
                          EngineProgress
                            {| currentTime := 3; playableDuration := 9 |}])
                  (Sample.player Sample.noConstraints) eq_refl)).
Defined.

Lemma dispatch_no_engine_command (e : Event) (r s : Player) :
  videoRef s = false ->
  filter isEngineCommand (snd (dispatch e r s)) = [].
Proof.
  intros Hv. destruct e; cbn [dispatch]; handler_cases;
    try reflexivity; congruence.
Qed.

(** X5. As long as no Video element is mounted ([videoRef.current] is
    null) no handler commands the engine: a whole session sends it neither
    resume nor pause nor seek, and no handler sets the ref. *)
Theorem no_engine_command_without_video :
  forall (steps : list Step) (s : Player),
    videoRef s = false ->
    filter isEngineCommand (snd (run steps s)) = []
    /\ videoRef (fst (run steps s)) = false.
Proof.
  intros steps. induction steps as [|st steps IH]; intros s Hv;
    [split; [reflexivity|exact Hv]|].
  cbn [run].
  pose proof (dispatch_no_engine_command (snd st) (closureOf st s) s Hv) as H1.
  pose proof (dispatch_videoRef (snd st) (closureOf st s) s) as H2.
  fold (step st s) in H1, H2.
  destruct (step st s) as [s1 t1]. cbn [fst snd] in H1, H2.
  rewrite Hv in H2. destruct (IH s1 H2) as [H3 H4].
  destruct (run steps s1) as [s2 t2]. cbn [fst snd] in *.
  rewrite filter_app, H1, H3. split; [reflexivity|exact H4].
Qed.

(** X5 at a session run before the Video element is mounted. *)
Lemma no_engine_command_without_video_witness :
  filter isEngineCommand
    (snd (run (fresh [ScreenFocus; Seek 10; RemotePause; ScreenUnfocus])
              (initialPlayer true Sample.noConstraints
                 (Some Sample.movie) (Some Sample.hls))))
  = [].
Proof.
  apply (proj1 (no_engine_command_without_video
                  (fresh [ScreenFocus; Seek 10; RemotePause; ScreenUnfocus])
                  (initialPlayer true Sample.noConstraints
                     (Some Sample.movie) (Some Sample.hls))
                  eq_refl)).
Defined.

(** ** Reports and what they need *)

Lemma dispatch_no_report_without_client (e : Event) (r s : Player) :
  api r = false -> reportsOf (snd (dispatch e r s)) = [].
Proof.
  intros Ha.
  assert (Hc : canReport r = false) by (unfold canReport; rewrite Ha;
                                         reflexivity).
  destruct e; cbn [dispatch];
    rewrite ?reportsOf_play, ?reportsOf_stop, ?reportsOf_pause,
      ?reportsOf_seek, ?reportsOf_togglePlay, ?reportsOf_discover,
      ?Hc, ?Ha;
    try reflexivity.
  - destruct (reportsOf_onProgress data r s) as [H|H]; [exact H|].
    unfold onProgress in *. revert H.
    destruct (isSeeking s); [intros; reflexivity|].
    destruct (isPlaybackStopped r); [intros; reflexivity|].
    destruct (negb _ || _); [intros; reflexivity|]. cbn [snd].
    rewrite reportsOf_callPlaystate, Ha. discriminate.
  - unfold onLoad. destruct (firstTime s); [|reflexivity].
    change (reportsOf (snd (play r s)) = []).
    rewrite reportsOf_play, Hc. reflexivity.
  - unfold onPlaybackStateChanged. destruct (isSeeking s); reflexivity.
Qed.

(** X6. Without a client ([apiAtom] is null, in the live component and in
    every render whose closure runs) a session sends no report at all:
    neither start nor progress nor stopped. *)
Theorem no_report_without_client :
  forall (steps : list Step) (s : Player),
    api s = false ->
    (forall st r, In st steps -> fst st = Some r -> api r = false) ->
    reportsOf (snd (run steps s)) = [].
Proof.
  intros steps. induction steps as [|st steps IH]; intros s Ha Hr;
    [reflexivity|].
  cbn [run].
  assert (Hc : api (closureOf st s) = false).
  { unfold closureOf. destruct (fst st) as [r|] eqn:E; [|exact Ha].
    apply (Hr st r); [left; reflexivity|exact E]. }
  pose proof (dispatch_no_report_without_client (snd st) _ s Hc) as H1.
  pose proof (step_sameSession st s) as Hs.
  fold (step st s) in H1.
  destruct (step st s) as [s1 t1]. cbn [fst snd] in H1, Hs.
  assert (Ha1 : api s1 = false) by (destruct Hs as [Hs _]; congruence).
  specialize (IH s1 Ha1 (fun st' r Hin => Hr st' r (or_intror Hin))).
  destruct (run steps s1) as [s2 t2]. cbn [snd] in *.
  rewrite reportsOf_app, H1, IH. reflexivity.
Qed.

(** X6 at a session of a player without a client. *)
Lemma no_report_without_client_witness :
  reportsOf
    (snd (run (fresh [Play; TogglePlay 70000000;
                      EngineProgress
                        {| currentTime := 7; playableDuration := 9 |};
                      StopPlayback])
              (mountVideo (initialPlayer false Sample.noConstraints
                             (Some Sample.movie) (Some Sample.hls)))))
  = [].
Proof.
  apply (no_report_without_client
           (fresh [Play; TogglePlay 70000000;
                   EngineProgress
                     {| currentTime := 7; playableDuration := 9 |};
                   StopPlayback])
           (mountVideo (initialPlayer false Sample.noConstraints
                          (Some Sample.movie) (Some Sample.hls)))
           eq_refl).
  intros st r Hin Hfst. cbn in Hin.
  repeat (destruct Hin as [<-|Hin]; [discriminate Hfst|]).
  destruct Hin.
Defined.

(** X7. From a render without an item id (no item, or an item whose id is
    missing or empty) the start, stopped and periodic progress reports are
    all held back: every handler but the pause toggle makes no call on the
    play-state API.  The pause toggle alone still calls [onPlaybackProgress],
    once per toggle when a client is present, with the floored position,
    [isPaused] as the render's [isPlaying], and the render's missing item
    id. *)
Theorem without_item_only_the_toggle_reports :
  forall (e : Event) (r s : Player),
    Js.truthy_string (itemId r) = false ->
    (forall p : Playstate.t,
       In p (reportsOf (snd (dispatch e r s))) ->
       isTogglePlay e = true
       /\ Playstate.kind p = onPlaybackProgress
       /\ Playstate.itemId p = itemId r)
    /\ (isTogglePlay e = false -> reportsOf (snd (dispatch e r s)) = [])
    /\ (forall ticks : Q,
          reportsOf (snd (dispatch (TogglePlay ticks) r s))
          = if api r
            then [progressReport r (Js.Math_floor ticks) (isPlaying r)]
            else [])
    /\ (forall (ticks : Q) (p : Playstate.t),
          In p (reportsOf (snd (dispatch (TogglePlay ticks) r s))) ->
          Playstate.positionTicks p = Some (Js.Math_floor ticks)
          /\ Playstate.isPaused p = Some (isPlaying r)).
Proof.
  intros e r s Hid.
  assert (Hc : canReport r = false)
    by (unfold canReport; rewrite Hid; apply andb_false_r).
  assert (Hall : forall p : Playstate.t,
             In p (reportsOf (snd (dispatch e r s))) ->
             isTogglePlay e = true
             /\ Playstate.kind p = onPlaybackProgress
             /\ Playstate.itemId p = itemId r).
  { intros p Hin.
    destruct e; cbn [dispatch] in Hin;
      rewrite ?reportsOf_play, ?reportsOf_stop, ?reportsOf_pause,
        ?reportsOf_seek, ?reportsOf_togglePlay, ?reportsOf_discover,
        ?Hc in Hin;
      try (destruct Hin; fail).
    - (* TogglePlay *)
      destruct (api r); [|destruct Hin]. destruct Hin as [<-|[]].
      repeat split.
    - (* EngineProgress *)
      unfold onProgress in Hin.
      destruct (isSeeking s); [destruct Hin|].
      destruct (isPlaybackStopped r); [destruct Hin|].
      rewrite Hid in Hin. destruct Hin.
    - (* EngineLoad *)
      unfold onLoad in Hin. destruct (firstTime s); [|destruct Hin].
      change (In p (reportsOf (snd (play r s)))) in Hin.
      rewrite reportsOf_play, Hc in Hin. destruct Hin.
    - (* EnginePlaybackState *)
      unfold onPlaybackStateChanged in Hin.
      destruct (isSeeking s); destruct Hin. }
  split; [exact Hall|]. split; [|split].
  - intros Hnot.
    destruct (reportsOf (snd (dispatch e r s))) as [|p l] eqn:E;
      [reflexivity|].
    destruct (Hall p (or_introl eq_refl)) as [Ht _]. congruence.
  - intros ticks. cbn [dispatch]. apply reportsOf_togglePlay.
  - intros ticks p Hin. cbn [dispatch] in Hin.
    rewrite reportsOf_togglePlay in Hin.
    destruct (api r); [|destruct Hin]. destruct Hin as [<-|[]].
    split; reflexivity.
Qed.

(** X7 at the pause toggle of a player whose item is not loaded. *)
Lemma without_item_only_the_toggle_reports_witness :
  map Playstate.itemId
    (reportsOf
       (snd (dispatch (TogglePlay 0)
               (mountVideo (initialPlayer true Sample.noConstraints None None))
               (mountVideo (initialPlayer true Sample.noConstraints None None)))))
  = [None].
Proof.
  destruct (without_item_only_the_toggle_reports (TogglePlay 0)
              (mountVideo (initialPlayer true Sample.noConstraints None None))
              (mountVideo (initialPlayer true Sample.noConstraints None None))
              eq_refl)
    as (_ & _ & Htoggle & _).
  rewrite (Htoggle 0%Q). reflexivity.
Defined.

Lemma sameSession_ids (s s' : Player) :
  sameSession s s' ->
  itemId s' = itemId s /\ mediaSourceId s' = mediaSourceId s
  /\ playSessionIdOf s' = playSessionIdOf s.
Proof.
  intros (H1 & H2 & H3 & H4).
  unfold itemId, mediaSourceId, playSessionIdOf.
  rewrite H2, H3, H4. repeat split.
Qed.

(** X8. In a session run from up-to-date renders every report, of
    whatever kind and from whatever handler, carries the same item id, the
    launch parameter [mediaSourceId] and the play session id of the
    stream. *)
Theorem reports_of_a_session_share_their_ids :
  forall (events : list Event) (s : Player) (p : Playstate.t),
    In p (reportsOf (snd (run (fresh events) s))) ->
    Playstate.itemId p = itemId s
    /\ Playstate.mediaSourceId p = mediaSourceId s
    /\ Playstate.playSessionId p = playSessionIdOf s.
Proof.
  intros events. induction events as [|e events IH]; intros s p Hin;
    [destruct Hin|].
  cbn [fresh map run] in Hin. fold (fresh events) in Hin.
  unfold step, closureOf in Hin. cbn [fst snd] in Hin.
  pose proof (dispatch_sameSession e s s) as Hs.
  pose proof (reportsOf_dispatch e s s p) as Hd.
  destruct (dispatch e s s) as [s1 t1]. cbn [fst snd] in *.
  specialize (IH s1 p).
  destruct (run (fresh events) s1) as [s2 t2]. cbn [snd] in *.
  rewrite reportsOf_app in Hin. apply in_app_or in Hin.
  destruct Hin as [Hin|Hin].
  - destruct (Hd Hin) as [->|[->|(pos & paused & ->)]]; repeat split.
  - destruct (IH Hin) as (A & B & C).
    destruct (sameSession_ids s s1 Hs) as (A' & B' & C').
    repeat split; congruence.
Qed.

(** X8 at the stopped report that ends a short session. *)
Lemma reports_of_a_session_share_their_ids_witness :
  Playstate.playSessionId
    (stoppedReport (Sample.player Sample.noConstraints) 0)
  = Some "session-1"%string.
Proof.
  apply (proj2 (proj2
    (reports_of_a_session_share_their_ids [Play; StopPlayback]
       (Sample.player Sample.noConstraints)
       (stoppedReport (Sample.player Sample.noConstraints) 0)
       (or_intror (or_introl eq_refl))))).
Defined.

(** ** After stop *)

Lemma jsfind_none_inv {A : Type} (f : A -> bool) (l : list A) (x : A) :
  Js.find f l = None -> In x l -> f x = true -> False.
Proof.
  induction l as [|y l IH]; cbn [Js.find]; intros Hf Hin Hx;
    [destruct Hin|].
  destruct (f y) eqn:E; [discriminate|].
  destruct Hin as [->|Hin]; [congruence|]. apply IH; assumption.
Qed.

Lemma dispatch_fresh_stopped (e : Event) (s : Player) :
  isPlaybackStopped s = true ->
  progress (fst (dispatch e s s)) = progress s
  /\ cacheProgress (fst (dispatch e s s)) = cacheProgress s
  /\ isPlaybackStopped (fst (dispatch e s s)) = true
  /\ countReports onPlaybackProgress (snd (dispatch e s s))
     = if isTogglePlay e && api s then 1%nat else 0%nat.
Proof.
  intros Hst. rewrite dispatch_isPlaybackStopped, Hst.
  destruct e; cbn [dispatch isTogglePlay andb]; handler_cases;
    unfold countReports; cbn;
    repeat split; first [reflexivity | congruence].
Qed.

(** X3. In a session run from up-to-date renders, once the player is
    stopped the recorded position and the buffered position never change
    again, whatever the engine still sends, and the only progress reports
    that still go out are those of the pause toggle, one per toggle when a
    client is present. *)
Theorem position_is_frozen_after_stop :
  forall (events : list Event) (s : Player),
    isPlaybackStopped s = true ->
    progress (fst (run (fresh events) s)) = progress s
    /\ cacheProgress (fst (run (fresh events) s)) = cacheProgress s
    /\ countReports onPlaybackProgress (snd (run (fresh events) s))
       = if api s
         then List.length (filter isTogglePlay events)
         else 0%nat.
Proof.
  intros events. induction events as [|e events IH]; intros s Hst.
  - cbn. destruct (api s); repeat split.
  - cbn [fresh map run]. fold (fresh events).
    unfold step, closureOf. cbn [fst snd].
    destruct (dispatch_fresh_stopped e s Hst) as (Hp & Hc & Hs & Hn).
    pose proof (dispatch_sameSession e s s) as Hsame.
    destruct (dispatch e s s) as [s1 t1]. cbn [fst snd] in *.
    destruct (IH s1 Hs) as (Hp1 & Hc1 & Hn1).
    destruct (run (fresh events) s1) as [s2 t2]. cbn [fst snd] in *.
    rewrite countReports_app, Hn, Hn1.
    destruct Hsame as (Hapi & _). rewrite Hapi.
    split; [congruence|]. split; [congruence|].
    cbn [filter]. destruct (isTogglePlay e), (api s); reflexivity.
Qed.

(** X3 at a stopped session that still receives progress samples. *)
Lemma position_is_frozen_after_stop_witness :
  progress
    (fst (run (fresh [EngineProgress
                        {| currentTime := 9; playableDuration := 20 |};
                      TogglePlay 0;
                      EngineProgress
                        {| currentTime := 0; playableDuration := 0 |}])
              (fst (stop (Sample.player Sample.noConstraints)
                         (fiveSecondsIn (Sample.player Sample.noConstraints))))))
  = 50000000%Q.
Proof.
  apply (proj1 (position_is_frozen_after_stop
                  [EngineProgress
                     {| currentTime := 9; playableDuration := 20 |};
                   TogglePlay 0;
                   EngineProgress
                     {| currentTime := 0; playableDuration := 0 |}]
                  (fst (stop (Sample.player Sample.noConstraints)
                          (fiveSecondsIn
                             (Sample.player Sample.noConstraints))))
                  eq_refl)).
Defined.





(** ** Loading *)

Lemma loads_after_the_first (renders : list Player) (s : Player) :
  firstTime s = false -> run (loads renders) s = (s, []).
Proof.
  intros Hf. induction renders as [|r renders IH]; [reflexivity|].
  cbn [loads map run]. fold (loads renders).
  unfold step, closureOf. cbn [fst snd dispatch].
  unfold onLoad. rewrite Hf, IH. reflexivity.
Qed.

(** X9. However often the engine reports a load, [play] runs for the
    first load only: any number of load events has the effects of the first
    one alone, and leaves the [firstTime] ref cleared. *)
Theorem load_plays_once :
  forall (r : Player) (renders : list Player) (s : Player),
    snd (run (loads (r :: renders)) s) = snd (onLoad r s)
    /\ firstTime (fst (run (loads (r :: renders)) s)) = false
    /\ (firstTime s = true -> snd (onLoad r s) = snd (play r s)).
Proof.
  intros r renders s.
  assert (Hf : firstTime (fst (onLoad r s)) = false).
  { unfold onLoad, play. destruct (firstTime s) eqn:E; [reflexivity|exact E]. }
  cbn [loads map run]. fold (loads renders).
  unfold step, closureOf. cbn [fst snd dispatch].
  destruct (onLoad r s) as [s1 t1] eqn:E1. cbn [fst snd] in *.
  rewrite (loads_after_the_first renders s1 Hf). cbn [fst snd].
  rewrite app_nil_r. split; [reflexivity|]. split; [exact Hf|].
  intros Ht. unfold onLoad in E1. rewrite Ht in E1.
  unfold play in *. injection E1 as _ <-. reflexivity.
Qed.

(** ** Subtitle selection *)

(** X10. A subtitle track the user selects is never replaced by the
    initial selection: after [setSubtitleTrack i], no discovery event
    selects anything and the selection stays [i], whatever index was
    requested at launch. *)
Theorem manual_selection_survives_discovery :
  forall (i : Z) (r s : Player) (later : list (list TextTrack)),
    snd (discoverAll later (fst (setSubtitleTrack i r s))) = []
    /\ selectedTextTrack
         (fst (discoverAll later (fst (setSubtitleTrack i r s))))
       = Some {| type := INDEX; value := i |}.
Proof.
  intros i r s later. apply discoverAll_selected. reflexivity.
Qed.

Section IndexOf.

Context {A : Type} (eqb : A -> A -> bool).

Lemma indexOf_from_absent (l : list A) (x : A) (i : Z) :
  (forall y, In y l -> eqb y x = false) ->
  Js.indexOf_from eqb l x i = -1.
Proof.
  revert i. induction l as [|y l IH]; intros i H; [reflexivity|].
  cbn [Js.indexOf_from]. rewrite (H y (or_introl eq_refl)).
  apply IH. intros z Hz. apply H. right. exact Hz.
Qed.

Lemma indexOf_from_range (l : list A) (x : A) (i : Z) :
  Js.indexOf_from eqb l x i = -1
  \/ i <= Js.indexOf_from eqb l x i < i + Z.of_nat (List.length l).
Proof.
  revert i. induction l as [|y l IH]; intros i; [left; reflexivity|].
  cbn [Js.indexOf_from List.length]. destruct (eqb y x).
  - right. lia.
  - destruct (IH (i + 1)) as [H|H]; [left; exact H|right; lia].
Qed.

End IndexOf.

(** X11. The value the initial selection hands to the engine is either a
    position inside the deduplicated catalogue or -1, and it is -1 exactly
    when the requested stream is not the first text subtitle with its
    display title; in every other case the catalogue holds the requested
    stream at that position. *)
Theorem initial_selection_value :
  forall (p : Player) (c : StreamObj),
    chosenSubtitleTrack p = Some c ->
    let v := Js.indexOf same_object (uniqueTextSubs p) (Some c) in
    (v = -1 \/ 0 <= v < Z.of_nat (List.length (uniqueTextSubs p)))
    /\ (v = -1 <-> Js.find (hasTitle (titleOf c)) (textSubs p) <> Some c)
    /\ (v <> -1 ->
        nth_error (uniqueTextSubs p) (Z.to_nat v) = Some (Some c)).
Proof.
  intros p c Hc v.
  assert (Hin : In c (textSubs p))
    by (apply (jsfind_some _ _ _ Hc)).
  assert (Hcase : Js.find (hasTitle (titleOf c)) (textSubs p) = Some c
                  \/ (Js.find (hasTitle (titleOf c)) (textSubs p) <> Some c
                      /\ v = -1)).
  { destruct (Js.find (hasTitle (titleOf c)) (textSubs p)) as [o|] eqn:Ef.
    - destruct (Nat.eq_dec (fst o) (fst c)) as [E|E].
      + left. f_equal.
        apply (sorted_positions_unique (textSubs p));
          [apply textSubs_sorted|apply (jsfind_some _ _ _ Ef)|exact Hin
          |exact E].
      + right. split; [intros H; injection H as ->; contradiction|].
        unfold v, Js.indexOf, uniqueTextSubs.
        rewrite uniqueOf_firstOccurrences.
        apply indexOf_from_absent. intros y Hy.
        apply in_map_iff in Hy. destruct Hy as (o' & <- & Ho').
        cbn [same_object]. apply Nat.eqb_neq. intros E'.
        pose proof (firstOccurrences_find _ _ _ Ho') as Hf'.
        cbn [app] in Hf'.
        apply firstOccurrences_In in Ho'. destruct Ho' as [Ho' _].
        assert (o' = c)
          by (apply (sorted_positions_unique (textSubs p));
              [apply textSubs_sorted|exact Ho'|exact Hin|exact E']).
        subst o'. rewrite Ef in Hf'. injection Hf' as ->.
        apply E. reflexivity.
    - exfalso. apply (jsfind_none_inv (hasTitle (titleOf c)) (textSubs p) c);
        [exact Ef|exact Hin|apply hasTitle_own]. }
  split; [|split].
  - destruct (indexOf_from_range same_object (uniqueTextSubs p) (Some c) 0)
      as [H|H]; [left; exact H|right]. unfold v, Js.indexOf. lia.
  - destruct Hcase as [Hf|[Hf Hv]].
    + destruct (catalogue_position p c Hf) as (n & Hn & _).
      fold v in Hn. split; [lia|]. intros H. contradiction.
    + split; [intros _; exact Hf|intros _; exact Hv].
  - intros Hv. destruct Hcase as [Hf|[_ Hv']]; [|contradiction].
    destruct (catalogue_position p c Hf) as (n & Hn & Hnth).
    fold v in Hn. rewrite Hn, Nat2Z.id. exact Hnth.
Qed.

(** X11 at a launch with the index of the second "English" subtitle. *)
Lemma initial_selection_value_witness :
  Js.indexOf same_object
    (uniqueTextSubs (Sample.player (Sample.withSubtitle "3")))
    (Some (3%nat, Sample.sub true "English" 3))
  = -1.
Proof.
  apply (proj2 (proj1 (proj2
    (initial_selection_value (Sample.player (Sample.withSubtitle "3"))
       (3%nat, Sample.sub true "English" 3) eq_refl)))).
  discriminate.
Defined.

(** ** The video source *)

(** X12. The start position of a video source is the stored position in
    ticks divided by 10000 and rounded to the nearest millisecond, halves
    upwards, and 0 when no position is stored; it differs from the exact
    quotient by at most half a millisecond.  [useVideoSource] and the
    inline player's [startPosition] compute the same value for every
    item. *)
Theorem start_position_rounds_ticks :
  forall (item : option BaseItemDto) (api : bool) (url : option string)
         (vs : VideoSource),
    useVideoSource item api url = Some vs ->
    startPosition vs = VideoPlayer.startPosition item
    /\ exists it : BaseItemDto,
         item = Some it
         /\ startPosition vs
            = match playbackPositionTicks it with
              | Some t => (t + 5000) / 10000
              | None => 0
              end
         /\ forall t : Z,
              playbackPositionTicks it = Some t ->
              t - 5000 < 10000 * startPosition vs <= t + 5000.
Proof.
  intros item api url vs H. unfold useVideoSource in H.
  destruct item as [it|]; [|discriminate].
  destruct url as [u|]; [|discriminate].
  destruct (negb api || negb (Js.truthy_string (Some u))); [discriminate|].
  injection H as <-. cbn [startPosition].
  unfold VideoPlayer.startPosition. cbn [option_bind].
  assert (Hval : match playbackPositionTicks it with
                 | Some t => if t =? 0 then 0
                             else Js.Math_round (inject_Z t / 10000)
                 | None => 0
                 end
                 = match playbackPositionTicks it with
                   | Some t => (t + 5000) / 10000
                   | None => 0
                   end).
  { destruct (playbackPositionTicks it) as [t|]; [|reflexivity].
    destruct (Z.eqb_spec t 0) as [->|_]; [reflexivity|].
    apply Math_round_ticks_to_ms. }
  rewrite Hval. split.
  - destruct (playbackPositionTicks it) as [t|];
      rewrite Math_round_ticks_to_ms; reflexivity.
  - exists it. split; [reflexivity|]. split; [reflexivity|].
    intros t Ht. rewrite Ht.
    pose proof (Z.div_mod (t + 5000) 10000 ltac:(lia)) as Hd.
    pose proof (Z.mod_pos_bound (t + 5000) 10000 ltac:(lia)) as Hm.
    lia.
Qed.

(** X12 at the sample item (120 seconds). *)
Lemma start_position_rounds_ticks_witness :
  VideoPlayer.startPosition (Some Sample.movie) = 120000.
Proof.
  symmetry.
  apply (proj1 (start_position_rounds_ticks (Some Sample.movie) true
                  (Some (url Sample.hls))
                  {| uri := url Sample.hls; isNetwork := true;
                     startPosition := 120000 |}
                  eq_refl)).
Defined.

(** ** The stream query and what is rendered *)

(** X13. The stream query yields data only with a client and an item, and
    only when [getStreamUrl] answered with a media source, a non-empty
    session id and a non-empty url, which it hands on unchanged; with such
    data and that item the player always has a video source, whose uri is
    that url. *)
Theorem stream_query_data_gives_a_video_source :
  forall (api : bool) (item : option BaseItemDto)
         (res : option StreamUrlResult) (st : StreamData),
    streamQueryFn api item res = QueryData (Some st) ->
    api = true
    /\ url st <> EmptyString
    /\ sessionId st <> EmptyString
    /\ (exists r, res = Some r
                  /\ res_mediaSource r = Some (mediaSource st)
                  /\ res_sessionId r = Some (sessionId st)
                  /\ res_url r = Some (url st))
    /\ exists (it : BaseItemDto) (vs : VideoSource),
         item = Some it
         /\ useVideoSource item api (Some (url st)) = Some vs
         /\ uri vs = url st.
Proof.
  intros api item res st H. unfold streamQueryFn in H.
  destruct api; [|discriminate]. cbn [negb] in H.
  destruct item as [it|]; [|discriminate].
  destruct res as [r|]; [|discriminate].
  destruct (res_sessionId r) as [sid|] eqn:Es; [|discriminate].
  destruct (res_mediaSource r) as [ms|] eqn:Em; [|discriminate].
  destruct (res_url r) as [u|] eqn:Eu; [|discriminate].
  destruct sid as [|c1 sid]; [discriminate|].
  destruct u as [|c2 u]; [discriminate|].
  cbn in H. injection H as <-. cbn [url sessionId mediaSource].
  split; [reflexivity|]. split; [discriminate|]. split; [discriminate|].
  split.
  - exists r. repeat split; assumption.
  - exists it. eexists. split; [reflexivity|].
    cbn. split; reflexivity.
Qed.

(** X13 at the sample stream. *)
Lemma stream_query_data_gives_a_video_source_witness :
  exists vs : VideoSource,
    useVideoSource (Some Sample.movie) true (Some (url Sample.hls)) = Some vs
    /\ uri vs = url Sample.hls.
Proof.
  destruct (stream_query_data_gives_a_video_source true (Some Sample.movie)
              (Some {| res_mediaSource := Some Sample.source;
                       res_sessionId := Some "session-1"%string;
                       res_url := Some (url Sample.hls) |})
              Sample.hls eq_refl)
    as (_ & _ & _ & _ & it & vs & Hit & Hvs & Huri).
  exists vs. split; assumption.
Defined.

(** X14. The Video element is rendered only when neither query is
    loading or failed, a client, an item and a stream with a non-empty url
    are present, and then the controls are rendered with it: the player
    never shows a video without its controls. *)
Theorem video_is_never_rendered_without_controls :
  forall (q : QueryFlags) (r : Player) (vs : VideoSource) (controls : bool),
    renderPlayer q r = VideoView (Some vs) controls ->
    controls = true
    /\ isLoadingItem q = false /\ isLoadingStreamUrl q = false
    /\ isErrorItem q = false /\ isErrorStreamUrl q = false
    /\ api r = true
    /\ exists (it : BaseItemDto) (st : StreamData),
         item r = Some it /\ stream r = Some st
         /\ url st <> EmptyString /\ uri vs = url st.
Proof.
  intros q r vs controls H. unfold renderPlayer in H.
  destruct (isLoadingItem q); [discriminate|].
  destruct (isLoadingStreamUrl q); [discriminate|].
  destruct (isErrorItem q); [discriminate|].
  destruct (isErrorStreamUrl q); [discriminate|].
  cbn [orb] in H. injection H as Hv Hc.
  unfold videoSource, useVideoSource in Hv.
  destruct (item r) as [it|]; [|discriminate].
  destruct (stream r) as [st|]; [|discriminate]. cbn [option_map] in Hv.
  destruct (api r); [|discriminate]. cbn [negb orb] in Hv.
  destruct (url st) as [|c u] eqn:Eu; [discriminate|].
  cbn in Hv. injection Hv as <-.
  split; [symmetry; exact Hc|]. repeat split.
  exists it, st. rewrite Eu. repeat split. discriminate.
Qed.

(** X14 at the sample session. *)
Lemma video_is_never_rendered_without_controls_witness :
  api (Sample.player Sample.noConstraints) = true.
Proof.
  apply (video_is_never_rendered_without_controls
           {| isLoadingItem := false; isErrorItem := false;
              isLoadingStreamUrl := false; isErrorStreamUrl := false |}
           (Sample.player Sample.noConstraints)
           {| uri := url Sample.hls; isNetwork := true;
              startPosition := 120000 |}
           true eq_refl).
Defined.

(** ** Track lists *)

Lemma discover_tracks (tracks : list TextTrack) (s : Player) :
  embededTextTracks (fst (discover tracks s)) = tracks.
Proof.
  unfold discover, textTracksEffect. cbn [onTextTracks fst].
  destruct (chosenSubtitleTrack (setEmbededTextTracks tracks s));
    [|reflexivity].
  destruct (selectedTextTrack (setEmbededTextTracks tracks s)); reflexivity.
Qed.

Lemma discoverAll_snoc (events : list (list TextTrack))
    (last : list TextTrack) (s : Player) :
  fst (discoverAll (events ++ [last]) s)
  = fst (discover last (fst (discoverAll events s))).
Proof.
  revert s. induction events as [|tracks events IH]; intros s;
    cbn [app discoverAll].
  - cbn [fst]. destruct (discover last s). reflexivity.
  - destruct (discover tracks s) as [s1 t1]. specialize (IH s1).
    destruct (discoverAll (events ++ [last]) s1).
    destruct (discoverAll events s1). cbn [fst] in *. exact IH.
Qed.

(** X15. The subtitle list the controls get shows the tracks of the
    latest discovery event and nothing else: one entry per track, in the
    engine's order, with the track's index and language and its title as
    name (the empty name when the title is missing).  Earlier discovery
    events leave no trace, and the initial selection does not disturb the
    list.  The audio list is built from the engine's audio tracks in the
    same way, except that [getAudioTracks] drops the language. *)
Theorem subtitle_list_is_the_latest_discovery :
  forall (events : list (list TextTrack)) (last : list TextTrack)
         (s : Player),
    getSubtitleTracks (fst (discoverAll (events ++ [last]) s))
    = map trackInfoOf last
    /\ getAudioTracks (onAudioTracks last)
       = map (fun t => {| ti_name := ti_name (trackInfoOf t);
                          ti_index := index t;
                          ti_language := None |}) last.
Proof.
  intros events last s. split.
  - rewrite discoverAll_snoc.
    unfold getSubtitleTracks. rewrite discover_tracks. reflexivity.
  - unfold getAudioTracks, onAudioTracks. rewrite map_map. reflexivity.
Qed.

(** ** The download button *)

(** X16. Rendering the download button throws exactly when the playback
    info has finished loading and carries an empty [MediaSources] array:
    element 0 of the array is then read without a guard.  With the info
    missing, with [MediaSources] missing, or while loading, it renders. *)
Theorem download_button_throws_on_empty_sources :
  forall (isLoading : bool) (playbackInfo : option PlaybackInfoResponse)
         (process : option DownloadView.Process) (downloaded : bool)
         (it : BaseItemDto),
    DownloadView.render isLoading playbackInfo process downloaded it
    = DownloadView.RenderThrows
    <-> isLoading = false
        /\ exists info, playbackInfo = Some info
                        /\ MediaSources info = Some [].
Proof.
  intros isLoading playbackInfo process downloaded it.
  unfold DownloadView.render, DownloadView.directPlayDenied.
  destruct isLoading.
  - split; [discriminate|]. intros [H _]. discriminate H.
  - destruct playbackInfo as [info|].
    + destruct (MediaSources info) as [[|src l]|] eqn:E.
      * split; [|reflexivity]. intros _. split; [reflexivity|].
        exists info. split; [reflexivity|exact E].
      * split.
        -- destruct (SupportsDirectPlay src) as [[|]|]; try discriminate;
             destruct process as [p|];
             try (destruct (DownloadView.differentId _ _));
             try (destruct downloaded); discriminate.
        -- intros (_ & info' & Hi & Hm). injection Hi as <-. congruence.
      * split.
        -- destruct process as [p|];
             try (destruct (DownloadView.differentId _ _));
             try (destruct downloaded); discriminate.
        -- intros (_ & info' & Hi & Hm). injection Hi as <-. congruence.
    + split.
      * destruct process as [p|];
          try (destruct (DownloadView.differentId _ _));
          try (destruct downloaded); discriminate.
      * intros (_ & info' & Hi & _). discriminate Hi.
Qed.

(** X17. Whether the active download button is shown does not depend on
    the item's [CanDownload] flag.  When it is shown, nothing is loading,
    no download is running and the item is not marked as downloaded; a
    press then starts the download if the item is flagged downloadable and
    the first media source states whether it supports direct play, and it
    rejects with the not-downloadable error if playback info is present and
    the item is not flagged downloadable. *)
Theorem download_button_press :
  forall (isLoading : bool) (playbackInfo : option PlaybackInfoResponse)
         (process : option DownloadView.Process) (downloaded : bool)
         (it : BaseItemDto),
    DownloadView.render isLoading playbackInfo process downloaded it
    = DownloadView.DownloadButton ->
    isLoading = false /\ process = None /\ downloaded = false
    /\ (forall flag : option bool,
          DownloadView.render isLoading playbackInfo process downloaded
            {| Id := Id it; UserData := UserData it; CanDownload := flag |}
          = DownloadView.DownloadButton)
    /\ (forall info src,
          playbackInfo = Some info ->
          DownloadItem.firstSource info = Some src ->
          SupportsDirectPlay src <> None ->
          downloadable it ->
          DownloadItem.downloadFile it playbackInfo
          = (DownloadItem.Fulfilled, [DownloadMedia it]))
    /\ (forall info,
          playbackInfo = Some info ->
          ~ downloadable it ->
          DownloadItem.downloadFile it playbackInfo
          = (DownloadItem.Rejected DownloadItem.notDownloadable, [])).
Proof.
  intros isLoading playbackInfo process downloaded it H.
  unfold DownloadView.render in H.
  destruct isLoading; [discriminate|].
  destruct (DownloadView.directPlayDenied playbackInfo) as [[|]|] eqn:Ed;
    try discriminate.
  destruct process as [p|].
  { destruct (DownloadView.differentId _ _); discriminate. }
  destruct downloaded; [discriminate|].
  split; [reflexivity|]. split; [reflexivity|]. split; [reflexivity|].
  split; [|split].
  - intros flag. unfold DownloadView.render. rewrite Ed. reflexivity.
  - intros info src -> Hsrc Hdp Hdl.
    unfold DownloadItem.downloadFile. rewrite Hsrc. cbn [option_bind].
    unfold downloadable in Hdl. rewrite Hdl.
    unfold DownloadView.directPlayDenied in Ed.
    unfold DownloadItem.firstSource in Hsrc.
    destruct (MediaSources info) as [[|src' l]|]; try discriminate.
    cbn in Hsrc. injection Hsrc as ->.
    destruct (SupportsDirectPlay src) as [[|]|];
      [reflexivity|discriminate|contradiction].
  - intros info -> Hnd.
    unfold DownloadItem.downloadFile, downloadable in *.
    destruct (CanDownload it) as [[|]|];
      [contradiction Hnd; reflexivity| |];
      rewrite andb_false_r; reflexivity.
Qed.

(** X17 at the sample item with the sample playback info. *)
Lemma download_button_press_witness :
  DownloadItem.downloadFile Sample.movie
    (Some {| MediaSources := Some [Sample.source] |})
  = (DownloadItem.Fulfilled, [DownloadMedia Sample.movie]).
Proof.
  destruct (download_button_press false
              (Some {| MediaSources := Some [Sample.source] |})
              None false Sample.movie eq_refl)
    as (_ & _ & _ & _ & Hstart & _).
  apply (Hstart {| MediaSources := Some [Sample.source] |} Sample.source
           eq_refl eq_refl).
  - discriminate.
  - reflexivity.
Defined.

Lemma downloadedEffect_storedHas (stored : list BaseItemDto)
    (it : BaseItemDto) (downloaded : bool) :
  DownloadView.downloadedEffect stored it downloaded
  = storedHas it stored || downloaded.
Proof.
  unfold DownloadView.downloadedEffect, storedHas.
  induction stored as [|d stored IH]; cbn [Js.find existsb];
    [reflexivity|].
  destruct (negb (DownloadView.differentId (Id d) (Id it)));
    [reflexivity|exact IH].
Qed.

(** X18. The "downloaded" mark is only ever set: after any number of
    runs of the effect, it is set exactly when it was set before or one of
    the lists read from storage held an item with this item's id.  Removing
    the item from storage later never clears the mark. *)
Theorem downloaded_mark_is_never_cleared :
  forall (reads : list (list BaseItemDto)) (it : BaseItemDto)
         (downloaded : bool),
    fold_left (fun d stored => DownloadView.downloadedEffect stored it d)
              reads downloaded
    = downloaded || existsb (storedHas it) reads.
Proof.
  intros reads it. induction reads as [|stored reads IH]; intros downloaded;
    cbn [fold_left existsb].
  - rewrite orb_false_r. reflexivity.
  - rewrite IH, downloadedEffect_storedHas.
    destruct (storedHas it stored), downloaded; reflexivity.
Qed.

(** ** The inline player *)

Lemma samples_trace (p : InlinePlayer.Props) (ds : list OnProgressData)
    (s : InlinePlayer.State) :
  snd (InlinePlayer.samples p ds s)
  = map (fun d => InlinePlayer.ReportPlaybackProgress
                    (InlinePlayer.itemId p) (currentTime d * 10000000)
                    (InlinePlayer.playSessionId p)) ds
  /\ InlinePlayer.progress (fst (InlinePlayer.samples p ds s))
     = fold_left (fun _ d => (currentTime d * 10000000)%Q) ds
                 (InlinePlayer.progress s)
  /\ InlinePlayer.videoRef (fst (InlinePlayer.samples p ds s))
     = InlinePlayer.videoRef s.
Proof.
  revert s. induction ds as [|d ds IH]; intros s;
    cbn [InlinePlayer.samples map fold_left]; [repeat split|].
  unfold InlinePlayer.onProgress.
  match goal with
  | |- context [InlinePlayer.samples p ds ?x] =>
      destruct (IH x) as (H1 & H2 & H3);
      destruct (InlinePlayer.samples p ds x) as [s2 t2]
  end.
  cbn [fst snd InlinePlayer.progress InlinePlayer.videoRef app] in *.
  rewrite H1, H2, H3. repeat split.
Qed.

(** X19. In a fullscreen viewing of the inline player every progress
    sample is reported, in order, with [currentTime] times 10000000 as
    position, samples at time 0 included; the dismissal then sends one
    "stopped" call whose position is that of the last sample, or the
    position held before when no sample arrived. *)
Theorem inline_player_reports_every_sample :
  forall (p : InlinePlayer.Props) (ds : list OnProgressData)
         (s : InlinePlayer.State),
    filter InlinePlayer.isProgressCall (snd (InlinePlayer.viewing p ds s))
    = map (fun d => InlinePlayer.ReportPlaybackProgress
                      (InlinePlayer.itemId p) (currentTime d * 10000000)
                      (InlinePlayer.playSessionId p)) ds
    /\ InlinePlayer.stoppedPositions (snd (InlinePlayer.viewing p ds s))
       = [fold_left (fun _ d => (currentTime d * 10000000)%Q) ds
                    (InlinePlayer.progress s)].
Proof.
  intros p ds s. unfold InlinePlayer.viewing.
  destruct (samples_trace p ds s) as (H1 & H2 & H3).
  destruct (InlinePlayer.samples p ds s) as [s1 t1].
  cbn [fst snd] in *. unfold InlinePlayer.onFullscreenPlayerDidDismiss.
  cbn [snd]. subst t1. rewrite <- H2. clear H2 H3. split.
  - rewrite filter_app.
    assert (Hs : forall l : list OnProgressData,
               filter InlinePlayer.isProgressCall
                 (map (fun d => InlinePlayer.ReportPlaybackProgress
                                  (InlinePlayer.itemId p)
                                  (currentTime d * 10000000)
                                  (InlinePlayer.playSessionId p)) l)
               = map (fun d => InlinePlayer.ReportPlaybackProgress
                                 (InlinePlayer.itemId p)
                                 (currentTime d * 10000000)
                                 (InlinePlayer.playSessionId p)) l).
    { intros l. induction l as [|d l IHl]; cbn; [reflexivity|].
      rewrite IHl. reflexivity. }
    rewrite Hs. destruct (InlinePlayer.videoRef s1); cbn;
      rewrite app_nil_r; reflexivity.
  - unfold InlinePlayer.stoppedPositions. rewrite flat_map_app.
    assert (Hs : forall l : list OnProgressData,
               flat_map (fun c => match c with
                                  | InlinePlayer.ReportPlaybackStopped _ pos _
                                    => [pos]
                                  | _ => []
                                  end)
                 (map (fun d => InlinePlayer.ReportPlaybackProgress
                                  (InlinePlayer.itemId p)
                                  (currentTime d * 10000000)
                                  (InlinePlayer.playSessionId p)) l)
               = []).
    { intros l. induction l as [|d l IHl]; cbn; [reflexivity|exact IHl]. }
    rewrite Hs. destruct (InlinePlayer.videoRef s1); reflexivity.
Qed.

(** ** The pause toggle *)

Lemma togglePlay_fresh (ticks : Q) (s : Player) :
  fst (togglePlay ticks s s) = s
  /\ filter isEngineCommand (snd (togglePlay ticks s s))
     = (if videoRef s then [toggleCommand s] else [])
  /\ map Playstate.isPaused (reportsOf (snd (togglePlay ticks s s)))
     = (if api s then [Some (isPlaying s)] else []).
Proof.
  unfold togglePlay, toggleCommand, onVideo, callPlaystate.
  destruct (isPlaying s), (videoRef s), (api s); repeat split.
Qed.

(** X20. The pause toggle takes its direction from [isPlaying], which
    only the engine's playback-state event updates: toggling n times with
    no such event in between sends the engine the same command n times,
    pause if the player was playing and resume otherwise, and reports the
    same [isPaused] n times; the commands do not alternate. *)
Theorem toggles_do_not_alternate_on_their_own :
  forall (ticks : list Q) (s : Player),
    filter isEngineCommand (snd (run (fresh (map TogglePlay ticks)) s))
    = (if videoRef s
       then repeat (toggleCommand s) (List.length ticks)
       else [])
    /\ map Playstate.isPaused
         (reportsOf (snd (run (fresh (map TogglePlay ticks)) s)))
       = (if api s
          then repeat (Some (isPlaying s)) (List.length ticks)
          else []).
Proof.
  intros ticks s. induction ticks as [|t ticks IH].
  - cbn. destruct (videoRef s), (api s); split; reflexivity.
  - cbn [map fresh run List.length repeat].
    fold (fresh (map TogglePlay ticks)).
    unfold step, closureOf. cbn [fst snd dispatch].
    destruct (togglePlay_fresh t s) as (H1 & H2 & H3).
    destruct (togglePlay t s s) as [s1 t1]. cbn [fst snd] in *. subst s1.
    destruct IH as [IH1 IH2].
    destruct (run (fresh (map TogglePlay ticks)) s) as [s2 t2].
    cbn [snd] in *.
    rewrite filter_app, reportsOf_app, map_app, H2, H3, IH1, IH2.
    destruct (videoRef s), (api s); split; reflexivity.
Qed.
